(** * A to-do list backend: validation, the task table and its CRUD service

    The development follows the Python packages of the application:
    [schemas] (the pydantic models of the request bodies), [database] (the
    [tasks] table), [orm] (the part of SQLAlchemy's [Session] the service
    calls), [crud] (the service functions) and [api] (the FastAPI handlers
    and the request pipeline around them).  The properties that are proved
    come after the definitions. *)

From Stdlib Require Import ZArith List String Ascii Bool Lia.
From Stdlib Require Import Sorted Permutation DecimalString.
Import ListNotations.
Local Open Scope Z_scope.

(** ** Exceptions and outcomes *)

(** The exceptions that can leave a handler or the request pipeline. *)
Inductive Exception : Type :=
| HTTPException (status_code : Z) (detail : string)
    (* fastapi.HTTPException, raised by the handlers *)
| RequestValidationError (error_type : string)
    (* the body did not validate against its pydantic model: answered 422 *)
| DataError
    (* the database refused the statement *)
| InvalidRequestError
    (* Session.refresh found no row for the instance *)
| ValueError.
    (* the database driver cannot send a parameter of the statement *)

Inductive Outcome (A : Type) : Type :=
| Returned (a : A)
| Raised (e : Exception).
Arguments Returned {A} a.
Arguments Raised {A} e.

(** ** app/schemas/schemas.py *)

Module schemas.

(** Values given to keyword arguments of [Field]. *)
Inductive kwvalue : Type :=
| KInt (n : nat)
| KBool (b : bool).

(** [pydantic.fields.FieldInfo], the part that matters for a [str] field.
    [min_length] and [max_length] are keywords [Field] declares, and they
    become constraints of the field.  A keyword [Field] does not declare is
    collected with the other extra keywords and kept as [json_schema_extra],
    which decorates the JSON schema and takes no part in validation.
    [strip_whitespace] is such a keyword: pydantic declares it on
    [StringConstraints] and [constr], not on [Field].  Of the keywords
    [Field] declares, only the two that this program passes are followed
    here. *)
Record FieldInfo : Type := {
  min_length : option nat;
  max_length : option nat;
  json_schema_extra : list (string * kwvalue)
}.

Definition FieldInfo_empty : FieldInfo :=
  {| min_length := None; max_length := None; json_schema_extra := [] |}.

Definition set_keyword (f : FieldInfo) (kw : string * kwvalue) : FieldInfo :=
  match kw with
  | (name, KInt n) =>
      if String.eqb name "min_length" then
        {| min_length := Some n; max_length := max_length f;
           json_schema_extra := json_schema_extra f |}
      else if String.eqb name "max_length" then
        {| min_length := min_length f; max_length := Some n;
           json_schema_extra := json_schema_extra f |}
      else
        {| min_length := min_length f; max_length := max_length f;
           json_schema_extra := json_schema_extra f ++ [kw] |}
  | (_, KBool _) =>
      {| min_length := min_length f; max_length := max_length f;
         json_schema_extra := json_schema_extra f ++ [kw] |}
  end.

(** [Field], applied to its keyword arguments in the order they are written. *)
Definition Field (kwargs : list (string * kwvalue)) : FieldInfo :=
  fold_left set_keyword kwargs FieldInfo_empty.

(** [ConfigDict]: the two settings that appear in this program or bear on
    string validation, with pydantic's defaults. *)
Record ConfigDict : Type := {
  str_strip_whitespace : bool;
  from_attributes : bool
}.

Definition ConfigDict_default : ConfigDict :=
  {| str_strip_whitespace := false; from_attributes := false |}.

(** The schema the string validator runs with.  Stripping is switched on
    by the model configuration (or by a [StringConstraints] annotation,
    which this program does not use); the lengths come from the field. *)
Record StrSchema : Type := {
  strip_whitespace : bool;
  str_min_length : option nat;
  str_max_length : option nat
}.

Definition str_schema (config : ConfigDict) (f : FieldInfo) : StrSchema :=
  {| strip_whitespace := str_strip_whitespace config;
     str_min_length := min_length f;
     str_max_length := max_length f |}.

(** White space as the validator's trimming sees it, for characters below
    256: U+0009..U+000D, U+0020, U+0085, U+00A0. *)
Definition is_whitespace (c : ascii) : bool :=
  let n := nat_of_ascii c in
  ((9 <=? n)%nat && (n <=? 13)%nat)
  || (n =? 32)%nat || (n =? 133)%nat || (n =? 160)%nat.

Fixpoint trim_start (s : string) : string :=
  match s with
  | EmptyString => EmptyString
  | String c s' => if is_whitespace c then trim_start s' else s
  end.

Fixpoint trim_end (s : string) : string :=
  match s with
  | EmptyString => EmptyString
  | String c s' =>
      match trim_end s' with
      | EmptyString => if is_whitespace c then EmptyString
                       else String c EmptyString
      | r => String c r
      end
  end.

Definition trim (s : string) : string := trim_end (trim_start s).

Definition too_short (bound : option nat) (s : string) : bool :=
  match bound with
  | Some n => (String.length s <? n)%nat
  | None => false
  end.

Definition too_long (bound : option nat) (s : string) : bool :=
  match bound with
  | Some n => (n <? String.length s)%nat
  | None => false
  end.

(** The string validator: strip first when the schema says so, then check
    the lengths; the value that comes out is the one that was checked. *)
Definition validate_str (sch : StrSchema) (input : string) : Outcome string :=
  let s := if strip_whitespace sch then trim input else input in
  if too_short (str_min_length sch) s then
    Raised (RequestValidationError "string_too_short")
  else if too_long (str_max_length sch) s then
    Raised (RequestValidationError "string_too_long")
  else Returned s.

(** class TaskBase(BaseModel):
      text: str = Field(min_length=1, max_length=255, strip_whitespace=True) *)
Record TaskBase : Type := { text : string }.

Definition TaskBase_text : FieldInfo :=
  Field [("min_length"%string, KInt 1); ("max_length"%string, KInt 255);
         ("strip_whitespace"%string, KBool true)].

Definition TaskBase_config : ConfigDict := ConfigDict_default.

Definition TaskBase_validate (body_text : string) : Outcome TaskBase :=
  match validate_str (str_schema TaskBase_config TaskBase_text) body_text with
  | Returned s => Returned {| text := s |}
  | Raised e => Raised e
  end.

(** class TaskCreate(TaskBase): pass
    class TaskUpdateText(TaskBase): pass *)
Definition TaskCreate : Type := TaskBase.
Definition TaskUpdateText : Type := TaskBase.
Definition TaskCreate_validate : string -> Outcome TaskCreate := TaskBase_validate.
Definition TaskUpdateText_validate : string -> Outcome TaskUpdateText :=
  TaskBase_validate.

(** class TaskMessage(BaseModel): message: str *)
Record TaskMessage : Type := { message : string }.

End schemas.

(** ** app/database/database.py *)

Module database.

(** Timestamps, in microseconds of the server's local clock. *)
Definition datetime : Type := Z.

(** A row of the table [tasks]. *)
Record Task : Type := {
  id : Z;
  text : string;
  done : bool;
  created_at : datetime
}.

(** The database: the rows of [tasks] in storage order, and the sequence
    that feeds the primary key. *)
Record Database : Type := {
  tasks : list Task;
  tasks_id_seq : Z
}.

(** What [create_db_tables] leaves when the table did not exist. *)
Definition create_db_tables : Database :=
  {| tasks := []; tasks_id_seq := 1 |}.

(** What a request finds around it and does not control: the value
    [datetime.now] returns while its session is open, and the order in
    which the database hands out rows that the ORDER BY of a query does not
    tell apart.  SQL leaves that order open, and PostgreSQL may choose it
    anew for every query; [tie_rank] is the choice made for the queries of
    this request (the row with the smaller rank comes first). *)
Record Env : Type := {
  datetime_now : datetime;
  tie_rank : Task -> Z
}.

(** The largest value of PostgreSQL's bigint, the type of LIMIT and OFFSET. *)
Definition bigint_max : Z := 9223372036854775807.

(** The largest value of PostgreSQL's integer, the type of the column [id]
    and of the sequence that feeds it. *)
Definition int_max : Z := 2147483647.

End database.

(** ** The SQLAlchemy session, as far as the service calls it *)

Module orm.
Import database.

(** A session bound to the database.  [committed] is what the database
    holds for every other connection and after the session is closed;
    [working] is the state inside the session's open transaction; [env] is
    what the request finds around it (the column default of [created_at]
    reads its clock when a row is inserted, a query with ORDER BY gets its
    tie order).

    The session is made with [autoflush=False], and the real one sends its
    INSERT, UPDATE and DELETE statements at the flush that [commit] starts.
    Here they act on [working] at once: every service function runs its
    queries before its first change, so no query can tell the difference.
    A statement that the driver cannot send or the database refuses is
    the exception: it changes nothing, and [flush_error] remembers its
    error until the flush, where [commit] raises it. *)
Record Session : Type := {
  committed : Database;
  working : Database;
  env : Env;
  flush_error : option Exception
}.

(** SessionLocal() *)
Definition SessionLocal (store : Database) (now : Env) : Session :=
  {| committed := store; working := store; env := now; flush_error := None |}.

(** db.close(): the open transaction is rolled back. *)
Definition close (db : Session) : Database := committed db.

(** Computations on a session that return a value or raise. *)
Definition M (A : Type) : Type := Session -> Session * Outcome A.

Definition ret {A : Type} (a : A) : M A := fun db => (db, Returned a).

Definition raise {A : Type} (e : Exception) : M A := fun db => (db, Raised e).

Definition bind {A B : Type} (m : M A) (k : A -> M B) : M B :=
  fun db =>
    match m db with
    | (db', Returned a) => k a db'
    | (db', Raised e) => (db', Raised e)
    end.

Notation "x <- m ;; k" := (bind m (fun x => k))
  (at level 61, m at next level, right associativity).
Notation "m ;; k" := (bind m (fun _ => k))
  (at level 61, right associativity).

(** A Python [for] loop that carries the variables in [s]. *)
Fixpoint for_each {A S : Type} (l : list A) (body : A -> S -> M S) (s : S) : M S :=
  match l with
  | [] => ret s
  | a :: l' => s' <- body a s ;; for_each l' body s'
  end.

Definition with_working (db : Session) (w : Database) : Session :=
  {| committed := committed db; working := w; env := env db;
     flush_error := flush_error db |}.

Definition with_flush_error (db : Session) (e : Exception) : Session :=
  {| committed := committed db; working := working db; env := env db;
     flush_error := Some e |}.

(** The driver refuses a string parameter that holds the character U+0000
    (A string literal cannot contain NUL (0x00) characters). *)
Definition contains_nul (s : string) : bool :=
  existsb (fun c => Ascii.eqb c Ascii.zero) (list_ascii_of_string s).

(** db.query(Task): the rows the transaction sees. *)
Definition query_Task : M (list Task) :=
  fun db => (db, Returned (tasks (working db))).

(** .filter(Task.id == task_id) *)
Definition filter_id (task_id : Z) (q : list Task) : list Task :=
  filter (fun t => id t =? task_id) q.

(** .filter(Task.done == True) *)
Definition filter_done (q : list Task) : list Task :=
  filter (fun t => Bool.eqb (done t) true) q.

(** Newest first.  Rows with equal created_at come in the order of their
    rank, and rows that agree on that too stay as they were. *)
Definition comes_before (rank : Task -> Z) (t u : Task) : bool :=
  (created_at u <? created_at t)
  || ((created_at u =? created_at t) && (rank t <=? rank u)).

Fixpoint insert_desc (rank : Task -> Z) (t : Task) (l : list Task) : list Task :=
  match l with
  | [] => [t]
  | u :: l' =>
      if comes_before rank t u then t :: l
      else u :: insert_desc rank t l'
  end.

Definition sort_desc (rank : Task -> Z) (q : list Task) : list Task :=
  fold_right (insert_desc rank) [] q.

(** .order_by(desc(Task.created_at)): the tie order is the one the
    database chooses for this request. *)
Definition order_by_desc_created_at (q : list Task) : M (list Task) :=
  fun db => (db, Returned (sort_desc (tie_rank (env db)) q)).

(** .offset(skip) and .limit(limit): PostgreSQL refuses a negative count
    (OFFSET must not be negative, LIMIT must not be negative) and a count
    that is no bigint (bigint out of range). *)
Definition offset (skip : Z) (q : list Task) : M (list Task) :=
  if (skip <? 0) || (bigint_max <? skip) then raise DataError
  else ret (skipn (Z.to_nat skip) q).

Definition limit (n : Z) (q : list Task) : M (list Task) :=
  if (n <? 0) || (bigint_max <? n) then raise DataError
  else ret (firstn (Z.to_nat n) q).

(** .first(): the first row, or None *)
Definition first (q : list Task) : option Task :=
  match q with
  | [] => None
  | t :: _ => Some t
  end.

(** db.add(Task(text=...)): the row gets the next value of the sequence as
    its id and the column defaults done=False, created_at=datetime.now().
    An INSERT whose text the driver cannot send inserts nothing, and
    neither does one for which the sequence has no value left (nextval:
    reached maximum value of sequence). *)
Definition add (new_text : string) : M Task :=
  fun db =>
    let w := working db in
    let row := {| id := tasks_id_seq w; text := new_text; done := false;
                  created_at := datetime_now (env db) |} in
    if contains_nul new_text then (with_flush_error db ValueError, Returned row)
    else if int_max <? tasks_id_seq w then
      (with_flush_error db DataError, Returned row)
    else
      (with_working db {| tasks := tasks w ++ [row];
                          tasks_id_seq := tasks_id_seq w + 1 |},
       Returned row).

(** db.delete(task): DELETE FROM tasks WHERE id = task.id *)
Definition delete (task : Task) : M unit :=
  fun db =>
    let w := working db in
    (with_working db
       {| tasks := filter (fun t => negb (id t =? id task)) (tasks w);
          tasks_id_seq := tasks_id_seq w |},
     Returned tt).

Definition with_done (t : Task) (d : bool) : Task :=
  {| id := id t; text := text t; done := d; created_at := created_at t |}.

Definition with_text (t : Task) (s : string) : Task :=
  {| id := id t; text := s; done := done t; created_at := created_at t |}.

(** task.done = d: UPDATE tasks SET done = d WHERE id = task.id *)
Definition set_done (task : Task) (d : bool) : M Task :=
  fun db =>
    let w := working db in
    (with_working db
       {| tasks := map (fun t => if id t =? id task then with_done t d else t)
                       (tasks w);
          tasks_id_seq := tasks_id_seq w |},
     Returned (with_done task d)).

(** task.text = s: UPDATE tasks SET text = s WHERE id = task.id.  An
    UPDATE whose text the driver cannot send updates nothing. *)
Definition set_text (task : Task) (s : string) : M Task :=
  fun db =>
    let w := working db in
    if contains_nul s then
      (with_flush_error db ValueError, Returned (with_text task s))
    else
      (with_working db
         {| tasks := map (fun t => if id t =? id task then with_text t s else t)
                         (tasks w);
            tasks_id_seq := tasks_id_seq w |},
       Returned (with_text task s)).

(** db.commit(): the flush raises the error of a statement that did not
    go through, and the transaction is rolled back; otherwise the
    transaction is committed. *)
Definition commit : M unit :=
  fun db =>
    match flush_error db with
    | Some e =>
        ({| committed := committed db; working := committed db; env := env db;
            flush_error := None |},
         Raised e)
    | None =>
        ({| committed := working db; working := working db; env := env db;
            flush_error := None |},
         Returned tt)
    end.

(** db.refresh(task): load the row again by its primary key. *)
Definition refresh (task : Task) : M Task :=
  fun db =>
    match first (filter_id (id task) (tasks (working db))) with
    | Some t => (db, Returned t)
    | None => (db, Raised InvalidRequestError)
    end.

End orm.

(** ** app/crud/crud.py *)

Module crud.
Import database orm.

(** A parameter with a default value: [None] when the caller leaves it out. *)
Definition or_default {A : Type} (d : A) (arg : option A) : A :=
  match arg with
  | Some a => a
  | None => d
  end.

(** def get_tasks(db, skip: int = 0, limit: int = 10) *)
Definition get_tasks (skip limit : option Z) : M (list Task) :=
  q <- query_Task ;;
  q <- order_by_desc_created_at q ;;
  q <- orm.offset (or_default 0 skip) q ;;
  orm.limit (or_default 10 limit) q.

(** def get_task(db, task_id: int) *)
Definition get_task (task_id : Z) : M (option Task) :=
  q <- query_Task ;;
  ret (first (filter_id task_id q)).

(** def create_task(db, task: TaskCreate) *)
Definition create_task (task : schemas.TaskCreate) : M Task :=
  db_task <- add (schemas.text task) ;;
  commit ;;
  refresh db_task.

(** def delete_task(db, task_id: int) *)
Definition delete_task (task_id : Z) : M (option Task) :=
  db_task <- get_task task_id ;;
  match db_task with
  | Some t =>
      delete t ;;
      commit ;;
      ret (Some t)
  | None => ret None
  end.

(** def delete_completed_tasks(db) *)
Definition delete_completed_tasks : M Z :=
  q <- query_Task ;;
  let tasks_to_delete := filter_done q in
  deleted_count <-
    for_each tasks_to_delete
      (fun task deleted_count => delete task ;; ret (deleted_count + 1)) 0 ;;
  commit ;;
  ret deleted_count.

(** def update_task_status(db, task_id: int, done: bool) *)
Definition update_task_status (task_id : Z) (done : bool) : M (option Task) :=
  db_task <- get_task task_id ;;
  match db_task with
  | Some t =>
      t <- set_done t done ;;
      commit ;;
      t <- refresh t ;;
      ret (Some t)
  | None => ret None
  end.

(** def update_task_text(db, task_id: int, new_text: str) *)
Definition update_task_text (task_id : Z) (new_text : string) : M (option Task) :=
  db_task <- get_task task_id ;;
  match db_task with
  | Some t =>
      t <- set_text t new_text ;;
      commit ;;
      t <- refresh t ;;
      ret (Some t)
  | None => ret None
  end.

End crud.

(** ** app/api/api.py *)

Module api.
Import database orm.

(** str(n) for a Python int *)
Definition str (n : Z) : string := NilZero.string_of_int (Z.to_int n).

(** def get_db(): one session for the request, closed on every way out. *)
Definition get_db {A : Type} (handler : M A) (now : Env) (store : Database)
  : Database * Outcome A :=
  let db := SessionLocal store now in
  let (db', r) := handler db in
  (close db', r).

Definition not_found : Exception := HTTPException 404 "Task not found".

(** def read_tasks(skip: int = 0, limit: int = 10, db) *)
Definition read_tasks (skip limit : option Z) : M (list Task) :=
  tasks <- crud.get_tasks (Some (crud.or_default 0 skip))
                          (Some (crud.or_default 10 limit)) ;;
  ret tasks.

(** def delete_completed_tasks_endpoint(db) *)
Definition delete_completed_tasks_endpoint : M schemas.TaskMessage :=
  removed_count <- crud.delete_completed_tasks ;;
  ret {| schemas.message :=
           ("Removed " ++ str removed_count ++ " completed tasks.")%string |}.

(** def read_task(task_id: int, db) *)
Definition read_task (task_id : Z) : M Task :=
  db_task <- crud.get_task task_id ;;
  match db_task with
  | None => raise not_found
  | Some t => ret t
  end.

(** def create_task(task: TaskCreate, db) *)
Definition create_task (task : schemas.TaskCreate) : M Task :=
  crud.create_task task.

(** def update_task_status_endpoint(task_id: int, done: bool, db) *)
Definition update_task_status_endpoint (task_id : Z) (done : bool) : M Task :=
  db_task <- crud.update_task_status task_id done ;;
  match db_task with
  | None => raise not_found
  | Some t => ret t
  end.

(** def update_task_text_endpoint(task_id: int, task_update: TaskUpdateText, db) *)
Definition update_task_text_endpoint (task_id : Z)
  (task_update : schemas.TaskUpdateText) : M Task :=
  db_task <- crud.update_task_text task_id (schemas.text task_update) ;;
  match db_task with
  | None => raise not_found
  | Some t => ret t
  end.

(** def delete_single_task_endpoint(task_id: int, db) *)
Definition delete_single_task_endpoint (task_id : Z) : M schemas.TaskMessage :=
  db_task <- crud.delete_task task_id ;;
  match db_task with
  | None => raise not_found
  | Some _ =>
      ret {| schemas.message :=
               ("Task with ID " ++ str task_id ++ " removed successfully.")%string |}
  end.

(** The requests the application routes. *)
Inductive Request : Type :=
| GET_tasks (skip limit : option Z)
| DELETE_tasks_completed
| GET_task (task_id : Z)
| POST_tasks (body_text : string)
| PUT_task_status (task_id : Z) (done : bool)
| PUT_task_text (task_id : Z) (body_text : string)
| DELETE_task (task_id : Z).

(** What a handler hands back to be serialized. *)
Inductive Content : Type :=
| OneTask (t : Task)
| TaskList (l : list Task)
| Message (m : schemas.TaskMessage).

Definition Response : Type := Outcome (Z * Content).

Definition respond {A : Type} (status_code : Z) (wrap : A -> Content)
  (r : Database * Outcome A) : Database * Response :=
  match r with
  | (store, Returned a) => (store, Returned (status_code, wrap a))
  | (store, Raised e) => (store, Raised e)
  end.

(** One request against the application: the body is validated before the
    handler runs, the handler runs inside [get_db]. *)
Definition app (r : Request) (now : Env) (store : Database)
  : Database * Response :=
  match r with
  | GET_tasks skip limit =>
      respond 200 TaskList (get_db (read_tasks skip limit) now store)
  | DELETE_tasks_completed =>
      respond 200 Message (get_db delete_completed_tasks_endpoint now store)
  | GET_task task_id =>
      respond 200 OneTask (get_db (read_task task_id) now store)
  | POST_tasks body_text =>
      match schemas.TaskCreate_validate body_text with
      | Returned task =>
          respond 201 OneTask (get_db (create_task task) now store)
      | Raised e => (store, Raised e)
      end
  | PUT_task_status task_id done =>
      respond 200 OneTask
        (get_db (update_task_status_endpoint task_id done) now store)
  | PUT_task_text task_id body_text =>
      match schemas.TaskUpdateText_validate body_text with
      | Returned task_update =>
          respond 200 OneTask
            (get_db (update_task_text_endpoint task_id task_update) now store)
      | Raised e => (store, Raised e)
      end
  | DELETE_task task_id =>
      respond 200 Message (get_db (delete_single_task_endpoint task_id) now store)
  end.

(** The status line of a response. *)
Definition status_of (r : Response) : Z :=
  match r with
  | Returned (status_code, _) => status_code
  | Raised (HTTPException status_code _) => status_code
  | Raised (RequestValidationError _) => 422
  | Raised DataError => 500
  | Raised InvalidRequestError => 500
  | Raised ValueError => 500
  end.

(** A sequence of requests, each with what it finds around it. *)
Fixpoint serve (rs : list (Request * Env)) (store : Database)
  : Database * list Response :=
  match rs with
  | [] => (store, [])
  | (r, now) :: rs' =>
      let (store', resp) := app r now store in
      let (store'', resps) := serve rs' store' in
      (store'', resp :: resps)
  end.

End api.

(** ** Notions the statements use *)

Import database.

(** The row a primary key selects: what [get_task] reads. *)
Definition lookup (store : Database) (task_id : Z) : option Task :=
  orm.first (orm.filter_id task_id (tasks store)).

Definition ids (store : Database) : list Z := map id (tasks store).

(** What the primary key and its sequence guarantee: no two rows share an
    id, and every id in use was drawn from the sequence. *)
Definition well_formed (store : Database) : Prop :=
  NoDup (ids store) /\ Forall (fun t => id t < tasks_id_seq store) (tasks store).

(** Newest first, equal timestamps allowed. *)
Definition newest_first (l : list Task) : Prop :=
  StronglySorted (fun t u => created_at u <= created_at t) l.

(** Newest first with no two timestamps equal. *)
Definition strictly_newest_first (l : list Task) : Prop :=
  StronglySorted (fun t u => created_at u < created_at t) l.

(** The row an INSERT for [new_text] writes in the environment [now]. *)
Definition inserted (store : Database) (new_text : string) (now : Env) : Task :=
  {| id := tasks_id_seq store; text := new_text; done := false;
     created_at := datetime_now now |}.

Definition with_row (store : Database) (row : Task) : Database :=
  {| tasks := tasks store ++ [row]; tasks_id_seq := tasks_id_seq store + 1 |}.

Definition with_tasks (store : Database) (rows : list Task) : Database :=
  {| tasks := rows; tasks_id_seq := tasks_id_seq store |}.

(** The tables the UPDATE and DELETE statements leave. *)
Definition status_updated (task_id : Z) (d : bool) (rows : list Task) : list Task :=
  map (fun r => if id r =? task_id then orm.with_done r d else r) rows.

Definition text_updated (task_id : Z) (s : string) (rows : list Task) : list Task :=
  map (fun r => if id r =? task_id then orm.with_text r s else r) rows.

Definition without_id (task_id : Z) (rows : list Task) : list Task :=
  filter (fun r => negb (id r =? task_id)) rows.

(** The table after the rows in [l] were deleted one after the other. *)
Definition delete_all (l : list Task) (rows : list Task) : list Task :=
  fold_left (fun rows t => without_id (id t) rows) l rows.

(** What an update of [done] may change in a row, and what an update of
    [text] may: every other field stays, and the field itself changes only
    in the row the id selects. *)
Definition done_changed_only (task_id : Z) (d : bool) (old new : Task) : Prop :=
  id new = id old /\ text new = text old /\ created_at new = created_at old /\
  done new = (if id old =? task_id then d else done old).

Definition text_changed_only (task_id : Z) (s : string) (old new : Task) : Prop :=
  id new = id old /\ done new = done old /\ created_at new = created_at old /\
  text new = (if id old =? task_id then s else text old).

(** What an update of [text] may change at most, whether it goes through
    or not: nothing but the text, and that only in the row the id selects. *)
Definition text_differs_only (task_id : Z) (old new : Task) : Prop :=
  id new = id old /\ done new = done old /\ created_at new = created_at old /\
  (if id old =? task_id then True else text new = text old).

(** The page a listing returns out of the rows in listing order, and the
    rows that come after the page. *)
Definition page (skip limit : Z) (newest : list Task) : list Task :=
  firstn (Z.to_nat limit) (skipn (Z.to_nat skip) newest).

Definition after_page (skip limit : Z) (newest : list Task) : list Task :=
  skipn (Z.to_nat limit) (skipn (Z.to_nat skip) newest).

(** No row of [older] is newer than any row of [l]. *)
Definition no_older_than (l older : list Task) : Prop :=
  Forall (fun t => Forall (fun u => created_at u <= created_at t) older) l.

(** An environment for the examples: the clock reads [t], and rows that
    tie are handed out by ascending id. *)
Definition at_clock (t : datetime) : Env :=
  {| datetime_now := t; tie_rank := id |}.

(** The same clock with the opposite tie order. *)
Definition at_clock_descending (t : datetime) : Env :=
  {| datetime_now := t; tie_rank := fun r => - id r |}.

(** Two tasks created under one clock reading. *)
Definition two_posts_one_reading : Database :=
  fst (api.serve [(api.POST_tasks "first", at_clock 5);
                  (api.POST_tasks "second", at_clock 5)]
         create_db_tables).

(** The sequence still has a value for the next id. *)
Definition sequence_left (store : Database) : Prop :=
  tasks_id_seq store <= int_max.

(** A fresh table whose sequence has handed out its last value. *)
Definition sequence_exhausted : Database :=
  {| tasks := []; tasks_id_seq := int_max + 1 |}.

(** Counts that PostgreSQL takes for LIMIT and OFFSET. *)
Definition bigint_count (n : Z) : Prop := 0 <= n <= bigint_max.

(** No two stored tasks have the same created_at. *)
Definition distinct_times (store : Database) : Prop :=
  NoDup (map created_at (tasks store)).

(** [P] holds of the store and the task of an answer that carries a task;
    nothing is said of an answer that is an exception. *)
Definition on_success (r : Database * api.Response)
  (P : Database -> Task -> Prop) : Prop :=
  match r with
  | (store', Returned (_, api.OneTask t)) => P store' t
  | _ => True
  end.

(** A text of two characters, the second of them U+0000. *)
Definition text_with_nul : string := String "a" (String Ascii.zero EmptyString).

(** The requests of the scenario with four tasks, each in its environment. *)
Definition four_tasks_two_completed (a b c d : string)
  (eA eB eC eD e5 e6 e7 e8 : Env) : list (api.Request * Env) :=
  [(api.POST_tasks a, eA); (api.POST_tasks b, eB);
   (api.POST_tasks c, eC); (api.POST_tasks d, eD);
   (api.PUT_task_status 2 true, e5); (api.PUT_task_status 4 true, e6);
   (api.DELETE_tasks_completed, e7); (api.GET_tasks None None, e8)].

(** Small stores for the examples. *)
Definition one_task : Database :=
  {| tasks := [{| id := 1; text := "a"; done := false; created_at := 3 |}];
     tasks_id_seq := 2 |}.

Definition two_tasks : Database :=
  {| tasks := [{| id := 1; text := "a"; done := false; created_at := 3 |};
               {| id := 2; text := "b"; done := false; created_at := 4 |}];
     tasks_id_seq := 3 |}.

Definition three_tasks : Database :=
  {| tasks := [{| id := 1; text := "a"; done := false; created_at := 3 |};
               {| id := 2; text := "b"; done := false; created_at := 4 |};
               {| id := 3; text := "c"; done := false; created_at := 6 |}];
     tasks_id_seq := 4 |}.

Definition two_of_three_done : Database :=
  {| tasks := [{| id := 1; text := "a"; done := false; created_at := 3 |};
               {| id := 2; text := "b"; done := true; created_at := 4 |};
               {| id := 4; text := "d"; done := true; created_at := 6 |}];
     tasks_id_seq := 5 |}.

(** A string of [n] letters. *)
Definition letters (n : nat) : string := string_of_list_ascii (repeat "a"%char n).

(** ** The response models and the startup hook *)

Module response.

(** class TaskResponse(TaskBase):
      id: int
      done: bool
      created_at: datetime
      model_config = ConfigDict(from_attributes=True) *)
Record TaskResponse : Type := {
  id : Z;
  text : string;
  done : bool;
  created_at : datetime
}.

Definition TaskResponse_config : schemas.ConfigDict :=
  {| schemas.str_strip_whitespace := false; schemas.from_attributes := true |}.

(** A handler's return value under response_model=TaskResponse: the model
    is filled from the attributes of the ORM row, and [text], inherited
    from TaskBase, goes through the validator of that field.  [None] is the
    validation error that makes the framework answer 500. *)
Definition TaskResponse_validate (row : Task) : option TaskResponse :=
  match schemas.validate_str
          (schemas.str_schema TaskResponse_config schemas.TaskBase_text)
          (database.text row) with
  | Returned s =>
      Some {| id := database.id row; text := s; done := database.done row;
              created_at := database.created_at row |}
  | Raised _ => None
  end.

(** response_model=List[TaskResponse] *)
Fixpoint TaskResponse_list_validate (rows : list Task) : option (list TaskResponse) :=
  match rows with
  | [] => Some []
  | row :: rows' =>
      match TaskResponse_validate row, TaskResponse_list_validate rows' with
      | Some r, Some rs => Some (r :: rs)
      | _, _ => None
      end
  end.

Inductive Serialized : Type :=
| JsonTask (r : TaskResponse)
| JsonTasks (rs : list TaskResponse)
| JsonMessage (m : schemas.TaskMessage).

(** What the route's response_model makes of the handler's return value. *)
Definition serialize_response (c : api.Content) : option Serialized :=
  match c with
  | api.OneTask t => option_map JsonTask (TaskResponse_validate t)
  | api.TaskList l => option_map JsonTasks (TaskResponse_list_validate l)
  | api.Message m => Some (JsonMessage m)
  end.

End response.

(** The database server before the application starts: [None] when the
    table [tasks] does not exist yet. *)
Definition Server : Type := option Database.

(** Base.metadata.create_all(bind=engine): creates the tables that are
    missing and leaves the others alone. *)
Definition create_all (server : Server) : Server :=
  match server with
  | Some store => Some store
  | None => Some create_db_tables
  end.

(** async def startup_event(): the environment variable ENV is [None] when
    it is not set. *)
Definition startup_event (ENV : option string) (server : Server) : Server :=
  match ENV with
  | Some v => if String.eqb v "test" then server else create_all server
  | None => create_all server
  end.

(** Every stored text has a length the field of TaskBase accepts. *)
Definition texts_valid (store : Database) : Prop :=
  Forall (fun t => (1 <= String.length (text t) <= 255)%nat) (tasks store).

(** A response that is not an exception serializes. *)
Definition serializes (resp : api.Response) : Prop :=
  match resp with
  | Returned (_, c) => response.serialize_response c <> None
  | Raised _ => True
  end.

(** The store after a DELETE request for each id of [task_ids] in turn. *)
Definition delete_each (task_ids : list Z) (now : Env) (store : Database)
  : Database :=
  fold_left (fun st task_id => fst (api.app (api.DELETE_task task_id) now st))
    task_ids store.

(** No stored task is as new as the clock reading of [now]. *)
Definition all_older (store : Database) (now : Env) : Prop :=
  Forall (fun t => created_at t < datetime_now now) (tasks store).

(** ** Validation *)

Lemma TaskBase_text_constraints :
  schemas.TaskBase_text =
  {| schemas.min_length := Some 1%nat; schemas.max_length := Some 255%nat;
     schemas.json_schema_extra := [("strip_whitespace"%string, schemas.KBool true)] |}.
Proof. reflexivity. Qed.

(** The validator of the request bodies looks at the length of the text as
    it was sent, and hands the text on as it was sent. *)
Lemma TaskBase_validate_spec (body_text : string) :
  schemas.TaskBase_validate body_text =
  if (String.length body_text <? 1)%nat then
    Raised (RequestValidationError "string_too_short")
  else if (255 <? String.length body_text)%nat then
    Raised (RequestValidationError "string_too_long")
  else Returned {| schemas.text := body_text |}.
Proof.
  unfold schemas.TaskBase_validate, schemas.validate_str.
  rewrite TaskBase_text_constraints. cbn -[Nat.ltb].
  destruct (String.length body_text <? 1)%nat; [reflexivity|].
  destruct (255 <? String.length body_text)%nat; reflexivity.
Qed.

Lemma TaskBase_validate_Returned (body_text : string) (task : schemas.TaskBase) :
  schemas.TaskBase_validate body_text = Returned task <->
  (1 <= String.length body_text <= 255)%nat /\ task = {| schemas.text := body_text |}.
Proof.
  rewrite TaskBase_validate_spec.
  destruct (Nat.ltb_spec (String.length body_text) 1);
    [| destruct (Nat.ltb_spec 255 (String.length body_text))].
  - split; [discriminate | lia].
  - split; [discriminate | lia].
  - split.
    + intros H1. injection H1 as <-. split; [lia | reflexivity].
    + intros [_ ->]. reflexivity.
Qed.

Lemma TaskBase_validate_Raised (body_text : string) (e : Exception) :
  schemas.TaskBase_validate body_text = Raised e ->
  (String.length body_text = 0 \/ 255 < String.length body_text)%nat.
Proof.
  rewrite TaskBase_validate_spec.
  destruct (Nat.ltb_spec (String.length body_text) 1);
    [| destruct (Nat.ltb_spec 255 (String.length body_text))].
  - intros _. left. lia.
  - intros _. right. lia.
  - discriminate.
Qed.

Lemma length_letters (n : nat) : String.length (letters n) = n.
Proof.
  unfold letters. induction n as [|n IH]; cbn; [reflexivity | now rewrite IH].
Qed.

(** ** Reading a row by its primary key *)

Lemma first_filter_id_None (rows : list Task) (task_id : Z) :
  orm.first (orm.filter_id task_id rows) = None <-> ~ In task_id (map id rows).
Proof.
  induction rows as [|r rows IH]; cbn.
  - tauto.
  - destruct (Z.eqb_spec (id r) task_id) as [E|E]; cbn.
    + split; [discriminate | intros H; exfalso; apply H; now left].
    + rewrite IH. tauto.
Qed.

Lemma first_filter_id_Some (rows : list Task) (task_id : Z) (t : Task) :
  orm.first (orm.filter_id task_id rows) = Some t -> id t = task_id /\ In t rows.
Proof.
  induction rows as [|r rows IH]; cbn; [discriminate|].
  destruct (Z.eqb_spec (id r) task_id) as [E|E]; cbn.
  - intros H. injection H as <-. split; [exact E | now left].
  - intros H. destruct (IH H) as [H1 H2]. split; [exact H1 | now right].
Qed.

Lemma first_filter_id_In (rows : list Task) (t : Task) :
  NoDup (map id rows) -> In t rows ->
  orm.first (orm.filter_id (id t) rows) = Some t.
Proof.
  induction rows as [|r rows IH]; cbn; [tauto|].
  intros Hnd [->|Hin].
  - now rewrite Z.eqb_refl.
  - inversion Hnd as [|? ? Hnotin Hnd']; subst.
    destruct (Z.eqb_spec (id r) (id t)) as [E|E]; cbn.
    + exfalso. apply Hnotin. rewrite E. now apply in_map.
    + now apply IH.
Qed.

Lemma first_filter_id_app_absent (rows : list Task) (row : Task) :
  ~ In (id row) (map id rows) ->
  orm.first (orm.filter_id (id row) (rows ++ [row])) = Some row.
Proof.
  induction rows as [|r rows IH]; cbn; intros H.
  - now rewrite Z.eqb_refl.
  - destruct (Z.eqb_spec (id r) (id row)) as [E|E]; [tauto|].
    apply IH. tauto.
Qed.

Lemma first_filter_id_app_other (rows : list Task) (row : Task) (task_id : Z) :
  id row <> task_id ->
  orm.first (orm.filter_id task_id (rows ++ [row])) =
  orm.first (orm.filter_id task_id rows).
Proof.
  intros H. induction rows as [|r rows IH]; cbn.
  - destruct (Z.eqb_spec (id row) task_id); [contradiction | reflexivity].
  - destruct (Z.eqb_spec (id r) task_id); [reflexivity | exact IH].
Qed.

Lemma lookup_None (store : Database) (task_id : Z) :
  lookup store task_id = None <-> ~ In task_id (ids store).
Proof. apply first_filter_id_None. Qed.

Lemma lookup_Some (store : Database) (task_id : Z) (t : Task) :
  lookup store task_id = Some t -> id t = task_id /\ In t (tasks store).
Proof. apply first_filter_id_Some. Qed.

Lemma lookup_present (store : Database) (task_id : Z) :
  In task_id (ids store) -> exists t, lookup store task_id = Some t.
Proof.
  intros H. destruct (lookup store task_id) as [t|] eqn:E; [now exists t|].
  apply lookup_None in E. contradiction.
Qed.

Lemma fresh_id (store : Database) :
  well_formed store -> ~ In (tasks_id_seq store) (ids store).
Proof.
  intros [_ Hlt] Hin. unfold ids in Hin. apply in_map_iff in Hin.
  destruct Hin as [t [E Ht]]. rewrite Forall_forall in Hlt.
  specialize (Hlt t Ht). lia.
Qed.

Lemma lookup_inserted (store : Database) (new_text : string) (now : Env) :
  well_formed store ->
  lookup (with_row store (inserted store new_text now)) (tasks_id_seq store) =
  Some (inserted store new_text now).
Proof.
  intros Hwf. unfold lookup, with_row. cbn [tasks].
  apply (first_filter_id_app_absent (tasks store) (inserted store new_text now)).
  now apply fresh_id.
Qed.

(** ** What each service function does to the store *)

Lemma run_get_task (store : Database) (now : Env) (task_id : Z) :
  api.get_db (crud.get_task task_id) now store =
  (store, Returned (lookup store task_id)).
Proof. reflexivity. Qed.

(** The create, whatever the store: a text with U+0000 or a sequence
    without a value left makes the commit raise and nothing is stored;
    otherwise the text is stored. *)
Lemma run_create_task_cases (store : Database) (now : Env)
  (task : schemas.TaskCreate) :
  api.get_db (crud.create_task task) now store =
  if orm.contains_nul (schemas.text task) then (store, Raised ValueError)
  else if int_max <? tasks_id_seq store then (store, Raised DataError)
  else
    (with_row store (inserted store (schemas.text task) now),
     match lookup (with_row store (inserted store (schemas.text task) now))
             (tasks_id_seq store) with
     | Some t => Returned t
     | None => Raised InvalidRequestError
     end).
Proof.
  unfold api.get_db, crud.create_task, orm.bind, orm.add.
  cbn [orm.SessionLocal orm.working orm.env].
  destruct (orm.contains_nul (schemas.text task)); [reflexivity|].
  destruct (int_max <? tasks_id_seq store); [reflexivity|].
  unfold lookup, with_row, inserted, orm.commit, orm.refresh, orm.close,
    orm.with_working.
  cbn. destruct (orm.first _); reflexivity.
Qed.

Lemma sequence_left_ltb (store : Database) :
  sequence_left store -> (int_max <? tasks_id_seq store) = false.
Proof. unfold sequence_left. intros H. apply Z.ltb_ge. exact H. Qed.

Lemma run_create_task (store : Database) (now : Env) (task : schemas.TaskCreate) :
  well_formed store ->
  sequence_left store ->
  orm.contains_nul (schemas.text task) = false ->
  api.get_db (crud.create_task task) now store =
  (with_row store (inserted store (schemas.text task) now),
   Returned (inserted store (schemas.text task) now)).
Proof.
  intros Hwf Hseq Hnul.
  rewrite run_create_task_cases, Hnul, (sequence_left_ltb store Hseq).
  now rewrite (lookup_inserted store (schemas.text task) now Hwf).
Qed.

Lemma run_delete_task_absent (store : Database) (now : Env) (task_id : Z) :
  lookup store task_id = None ->
  api.get_db (crud.delete_task task_id) now store = (store, Returned None).
Proof.
  intros H. unfold lookup in H.
  unfold api.get_db, crud.delete_task, crud.get_task, orm.bind, orm.query_Task,
    orm.ret, orm.SessionLocal. cbn. rewrite H. reflexivity.
Qed.

Lemma run_update_task_status_absent (store : Database) (now : Env)
  (task_id : Z) (d : bool) :
  lookup store task_id = None ->
  api.get_db (crud.update_task_status task_id d) now store = (store, Returned None).
Proof.
  intros H. unfold lookup in H.
  unfold api.get_db, crud.update_task_status, crud.get_task, orm.bind,
    orm.query_Task, orm.ret, orm.SessionLocal. cbn. rewrite H. reflexivity.
Qed.

Lemma run_update_task_text_absent (store : Database) (now : Env)
  (task_id : Z) (new_text : string) :
  lookup store task_id = None ->
  api.get_db (crud.update_task_text task_id new_text) now store =
  (store, Returned None).
Proof.
  intros H. unfold lookup in H.
  unfold api.get_db, crud.update_task_text, crud.get_task, orm.bind,
    orm.query_Task, orm.ret, orm.SessionLocal. cbn. rewrite H. reflexivity.
Qed.

Lemma first_filter_id_map (g : Task -> Task) (task_id : Z) (rows : list Task) :
  (forall r, id (g r) = id r) ->
  orm.first (orm.filter_id task_id
               (map (fun r => if id r =? task_id then g r else r) rows)) =
  option_map g (orm.first (orm.filter_id task_id rows)).
Proof.
  intros Hg. induction rows as [|r rows IH]; cbn; [reflexivity|].
  destruct (Z.eqb_spec (id r) task_id) as [E|E]; cbn.
  - rewrite Hg. destruct (Z.eqb_spec (id r) task_id); [reflexivity | contradiction].
  - destruct (Z.eqb_spec (id r) task_id); [contradiction | exact IH].
Qed.

Lemma run_update_task_status_present (store : Database) (now : Env)
  (task_id : Z) (d : bool) (t : Task) :
  lookup store task_id = Some t ->
  api.get_db (crud.update_task_status task_id d) now store =
  (with_tasks store (status_updated task_id d (tasks store)),
   Returned (Some (orm.with_done t d))).
Proof.
  intros H. destruct (lookup_Some _ _ _ H) as [Hid _].
  pose proof (first_filter_id_map (fun r => orm.with_done r d) task_id
                (tasks store) (fun r => eq_refl)) as Hr.
  unfold lookup in H. rewrite H in Hr. cbn in Hr. unfold orm.filter_id in Hr.
  unfold api.get_db, crud.update_task_status, crud.get_task, orm.bind,
    orm.query_Task, orm.ret, orm.SessionLocal, orm.set_done, orm.commit,
    orm.refresh, orm.close, orm.with_working.
  cbn. rewrite H. cbn. rewrite Hid, Hr. reflexivity.
Qed.

Lemma run_update_task_text_present (store : Database) (now : Env)
  (task_id : Z) (s : string) (t : Task) :
  lookup store task_id = Some t ->
  orm.contains_nul s = false ->
  api.get_db (crud.update_task_text task_id s) now store =
  (with_tasks store (text_updated task_id s (tasks store)),
   Returned (Some (orm.with_text t s))).
Proof.
  intros H Hnul. destruct (lookup_Some _ _ _ H) as [Hid _].
  pose proof (first_filter_id_map (fun r => orm.with_text r s) task_id
                (tasks store) (fun r => eq_refl)) as Hr.
  unfold lookup in H. rewrite H in Hr. cbn in Hr. unfold orm.filter_id in Hr.
  unfold api.get_db, crud.update_task_text, crud.get_task, orm.bind,
    orm.query_Task, orm.ret, orm.SessionLocal, orm.set_text.
  cbn -[orm.contains_nul]. rewrite H. cbn -[orm.contains_nul]. rewrite Hnul.
  unfold orm.commit, orm.refresh, orm.close, orm.with_working.
  cbn. rewrite Hid, Hr. reflexivity.
Qed.

(** A text with U+0000 makes the commit of the update raise; the row keeps
    its text. *)
Lemma run_update_task_text_nul (store : Database) (now : Env)
  (task_id : Z) (s : string) (t : Task) :
  lookup store task_id = Some t ->
  orm.contains_nul s = true ->
  api.get_db (crud.update_task_text task_id s) now store = (store, Raised ValueError).
Proof.
  intros H Hnul. unfold lookup in H.
  unfold api.get_db, crud.update_task_text, crud.get_task, orm.bind,
    orm.query_Task, orm.ret, orm.SessionLocal, orm.set_text.
  cbn -[orm.contains_nul]. rewrite H. cbn -[orm.contains_nul]. rewrite Hnul.
  reflexivity.
Qed.

Lemma run_delete_task_present (store : Database) (now : Env)
  (task_id : Z) (t : Task) :
  lookup store task_id = Some t ->
  api.get_db (crud.delete_task task_id) now store =
  (with_tasks store (without_id task_id (tasks store)), Returned (Some t)).
Proof.
  intros H. destruct (lookup_Some _ _ _ H) as [Hid _].
  unfold lookup in H.
  unfold api.get_db, crud.delete_task, crud.get_task, orm.bind,
    orm.query_Task, orm.ret, orm.SessionLocal, orm.delete, orm.commit,
    orm.close, orm.with_working.
  cbn. rewrite H. cbn. rewrite Hid. reflexivity.
Qed.

(** The handlers turn the service's None into the 404 exception and pass
    everything else through. *)
Lemma run_or_404 {A : Type} (m : orm.M (option A)) (now : Env)
  (store store' : Database) (r : option A) :
  api.get_db m now store = (store', Returned r) ->
  api.get_db (orm.bind m (fun db_task =>
                match db_task with
                | None => orm.raise api.not_found
                | Some t => orm.ret t
                end)) now store =
  (store', match r with
           | None => Raised api.not_found
           | Some t => Returned t
           end).
Proof.
  unfold api.get_db, orm.bind. destruct (m (orm.SessionLocal store now)) as [db' o].
  intros H. injection H as H1 H2. subst o. destruct r; cbn; now rewrite H1.
Qed.

Lemma run_raised {A B : Type} (m : orm.M A) (k : A -> orm.M B) (now : Env)
  (store store' : Database) (e : Exception) :
  api.get_db m now store = (store', Raised e) ->
  api.get_db (orm.bind m k) now store = (store', Raised e).
Proof.
  unfold api.get_db, orm.bind. destruct (m (orm.SessionLocal store now)) as [db' o].
  intros H. injection H as H1 H2. subst o. now rewrite H1.
Qed.

(** The create request, case by case. *)
Lemma app_POST_tasks_cases (store : Database) (now : Env) (body_text : string) :
  api.app (api.POST_tasks body_text) now store =
  match schemas.TaskCreate_validate body_text with
  | Raised e => (store, Raised e)
  | Returned _ =>
      if orm.contains_nul body_text then (store, Raised ValueError)
      else if int_max <? tasks_id_seq store then (store, Raised DataError)
      else
        (with_row store (inserted store body_text now),
         match lookup (with_row store (inserted store body_text now))
                 (tasks_id_seq store) with
         | Some t => Returned (201, api.OneTask t)
         | None => Raised InvalidRequestError
         end)
  end.
Proof.
  unfold api.app.
  destruct (schemas.TaskCreate_validate body_text) as [task|e] eqn:Hv;
    [|reflexivity].
  apply TaskBase_validate_Returned in Hv as [_ ->].
  unfold api.create_task. rewrite run_create_task_cases. cbn [schemas.text].
  destruct (orm.contains_nul body_text); [reflexivity|].
  destruct (int_max <? tasks_id_seq store); [reflexivity|].
  cbn [api.respond]. destruct (lookup _ _); reflexivity.
Qed.

Lemma lookup_inserted_any (store : Database) (new_text : string) (now : Env) :
  exists t,
    lookup (with_row store (inserted store new_text now)) (tasks_id_seq store)
    = Some t.
Proof.
  apply lookup_present. unfold ids, with_row. cbn [tasks]. rewrite map_app.
  apply in_or_app. right. now left.
Qed.

Lemma app_POST_tasks (store : Database) (now : Env) (body_text : string)
  (task : schemas.TaskCreate) :
  well_formed store ->
  sequence_left store ->
  schemas.TaskCreate_validate body_text = Returned task ->
  orm.contains_nul body_text = false ->
  api.app (api.POST_tasks body_text) now store =
  (with_row store (inserted store body_text now),
   Returned (201, api.OneTask (inserted store body_text now))).
Proof.
  intros Hwf Hseq Hv Hnul. unfold api.app. rewrite Hv.
  apply TaskBase_validate_Returned in Hv as [_ ->].
  unfold api.create_task. rewrite run_create_task by assumption. reflexivity.
Qed.

Lemma app_GET_task (store : Database) (now : Env) (task_id : Z) :
  api.app (api.GET_task task_id) now store =
  (store, match lookup store task_id with
          | Some t => Returned (200, api.OneTask t)
          | None => Raised api.not_found
          end).
Proof.
  unfold api.app, api.read_task.
  rewrite (run_or_404 _ _ _ _ _ (run_get_task store now task_id)).
  destruct (lookup store task_id); reflexivity.
Qed.

Lemma app_PUT_task_status (store : Database) (now : Env) (task_id : Z)
  (d : bool) :
  api.app (api.PUT_task_status task_id d) now store =
  match lookup store task_id with
  | Some t => (with_tasks store (status_updated task_id d (tasks store)),
               Returned (200, api.OneTask (orm.with_done t d)))
  | None => (store, Raised api.not_found)
  end.
Proof.
  unfold api.app, api.update_task_status_endpoint.
  destruct (lookup store task_id) as [t|] eqn:E.
  - now rewrite (run_or_404 _ _ _ _ _
                   (run_update_task_status_present store now task_id d t E)).
  - now rewrite (run_or_404 _ _ _ _ _
                   (run_update_task_status_absent store now task_id d E)).
Qed.

Lemma run_update_task_text_endpoint (store : Database) (now : Env)
  (task_id : Z) (task_update : schemas.TaskUpdateText) :
  api.get_db (api.update_task_text_endpoint task_id task_update) now store =
  match lookup store task_id with
  | Some t =>
      if orm.contains_nul (schemas.text task_update) then
        (store, Raised ValueError)
      else
        (with_tasks store
           (text_updated task_id (schemas.text task_update) (tasks store)),
         Returned (orm.with_text t (schemas.text task_update)))
  | None => (store, Raised api.not_found)
  end.
Proof.
  unfold api.update_task_text_endpoint.
  destruct (lookup store task_id) as [t|] eqn:E.
  - destruct (orm.contains_nul (schemas.text task_update)) eqn:Hnul.
    + now rewrite (run_raised _ _ _ _ _ _
                     (run_update_task_text_nul store now task_id _ t E Hnul)).
    + now rewrite (run_or_404 _ _ _ _ _
                     (run_update_task_text_present store now task_id _ t E Hnul)).
  - now rewrite (run_or_404 _ _ _ _ _
                   (run_update_task_text_absent store now task_id _ E)).
Qed.

Lemma app_PUT_task_text (store : Database) (now : Env) (task_id : Z)
  (body_text : string) :
  api.app (api.PUT_task_text task_id body_text) now store =
  match schemas.TaskUpdateText_validate body_text with
  | Returned _ =>
      match lookup store task_id with
      | Some t =>
          if orm.contains_nul body_text then (store, Raised ValueError)
          else
            (with_tasks store (text_updated task_id body_text (tasks store)),
             Returned (200, api.OneTask (orm.with_text t body_text)))
      | None => (store, Raised api.not_found)
      end
  | Raised e => (store, Raised e)
  end.
Proof.
  unfold api.app.
  destruct (schemas.TaskUpdateText_validate body_text) as [task_update|e] eqn:Hv;
    [|reflexivity].
  apply TaskBase_validate_Returned in Hv as [_ ->].
  rewrite run_update_task_text_endpoint. cbn [schemas.text].
  destruct (lookup store task_id); [|reflexivity].
  destruct (orm.contains_nul body_text); reflexivity.
Qed.

Lemma run_delete_single_task_endpoint (store : Database) (now : Env)
  (task_id : Z) :
  api.get_db (api.delete_single_task_endpoint task_id) now store =
  match lookup store task_id with
  | Some t =>
      (with_tasks store (without_id task_id (tasks store)),
       Returned {| schemas.message :=
                     ("Task with ID " ++ api.str task_id
                        ++ " removed successfully.")%string |})
  | None => (store, Raised api.not_found)
  end.
Proof.
  unfold api.delete_single_task_endpoint.
  destruct (lookup store task_id) as [t|] eqn:E.
  - pose proof (run_delete_task_present store now task_id t E) as H.
    unfold api.get_db, orm.bind in *.
    destruct (crud.delete_task task_id (orm.SessionLocal store now)) as [db' o].
    injection H as H1 H2. subst o. cbn. now rewrite H1.
  - pose proof (run_delete_task_absent store now task_id E) as H.
    unfold api.get_db, orm.bind in *.
    destruct (crud.delete_task task_id (orm.SessionLocal store now)) as [db' o].
    injection H as H1 H2. subst o. cbn. now rewrite H1.
Qed.

Lemma app_DELETE_task (store : Database) (now : Env) (task_id : Z) :
  api.app (api.DELETE_task task_id) now store =
  match lookup store task_id with
  | Some t =>
      (with_tasks store (without_id task_id (tasks store)),
       Returned (200, api.Message
                   {| schemas.message :=
                        ("Task with ID " ++ api.str task_id
                           ++ " removed successfully.")%string |}))
  | None => (store, Raised api.not_found)
  end.
Proof.
  unfold api.app. rewrite run_delete_single_task_endpoint.
  destruct (lookup store task_id); reflexivity.
Qed.

(** ** Not found *)

(** C2: when an id selects no stored task, [get_task], [update_task_status],
    [update_task_text] and [delete_task] all return None and leave the store
    as it was, and each of the four handlers raises HTTPException with
    status 404 and detail "Task not found". *)
Theorem C2_absent_id_is_not_found (store : Database) (now : Env)
  (task_id : Z) (d : bool) (new_text : string)
  (task_update : schemas.TaskUpdateText) :
  ~ In task_id (ids store) ->
  api.get_db (crud.get_task task_id) now store = (store, Returned None) /\
  api.get_db (crud.update_task_status task_id d) now store
    = (store, Returned None) /\
  api.get_db (crud.update_task_text task_id new_text) now store
    = (store, Returned None) /\
  api.get_db (crud.delete_task task_id) now store = (store, Returned None) /\
  api.get_db (api.read_task task_id) now store
    = (store, Raised (HTTPException 404 "Task not found")) /\
  api.get_db (api.update_task_status_endpoint task_id d) now store
    = (store, Raised (HTTPException 404 "Task not found")) /\
  api.get_db (api.update_task_text_endpoint task_id task_update) now store
    = (store, Raised (HTTPException 404 "Task not found")) /\
  api.get_db (api.delete_single_task_endpoint task_id) now store
    = (store, Raised (HTTPException 404 "Task not found")).
Proof.
  intros Habsent. apply lookup_None in Habsent.
  repeat split.
  - now rewrite run_get_task, Habsent.
  - now apply run_update_task_status_absent.
  - now apply run_update_task_text_absent.
  - now apply run_delete_task_absent.
  - unfold api.read_task.
    rewrite (run_or_404 _ _ _ _ _ (run_get_task store now task_id)).
    now rewrite Habsent.
  - unfold api.update_task_status_endpoint.
    now rewrite (run_or_404 _ _ _ _ _
                   (run_update_task_status_absent store now task_id d Habsent)).
  - now rewrite run_update_task_text_endpoint, Habsent.
  - now rewrite run_delete_single_task_endpoint, Habsent.
Qed.

Lemma C2_absent_id_is_not_found_witness :
  ~ In 99999 (ids create_db_tables) /\
  api.get_db (api.read_task 99999) (at_clock 0) create_db_tables
    = (create_db_tables, Raised (HTTPException 404 "Task not found")).
Proof.
  assert (H : ~ In 99999 (ids create_db_tables)) by (cbn; tauto).
  split; [exact H|].
  exact (proj1 (proj2 (proj2 (proj2 (proj2
    (C2_absent_id_is_not_found create_db_tables (at_clock 0) 99999 true
       EmptyString {| schemas.text := "x" |} H)))))).
Defined.

(** ** Creating and reading back *)

(** C4, as the code has it: when the text validates and holds no U+0000,
    and the id sequence has a value left, creating a task and then getting
    it by the id that came back yields the text as sent, done = false and
    a created_at equal to the clock reading of the create call, hence no
    earlier than it. *)
Theorem C4_create_then_get (store : Database) (now later : Env)
  (body_text : string) (task : schemas.TaskCreate) :
  well_formed store ->
  sequence_left store ->
  schemas.TaskCreate_validate body_text = Returned task ->
  orm.contains_nul body_text = false ->
  exists store' t,
    api.app (api.POST_tasks body_text) now store
      = (store', Returned (201, api.OneTask t)) /\
    api.get_db (crud.get_task (id t)) later store' = (store', Returned (Some t)) /\
    api.app (api.GET_task (id t)) later store'
      = (store', Returned (200, api.OneTask t)) /\
    text t = body_text /\ done t = false /\
    created_at t = datetime_now now /\
    datetime_now now <= created_at t.
Proof.
  intros Hwf Hseq Hv Hnul.
  exists (with_row store (inserted store body_text now)),
         (inserted store body_text now).
  pose proof (lookup_inserted store body_text now Hwf) as Hl.
  split; [now apply (app_POST_tasks store now body_text task)|].
  split; [rewrite run_get_task; cbn [id inserted]; now rewrite Hl|].
  split; [rewrite app_GET_task; cbn [id inserted]; now rewrite Hl|].
  cbn. repeat split; try reflexivity.
Qed.

Lemma C4_create_then_get_witness :
  well_formed create_db_tables /\
  sequence_left create_db_tables /\
  schemas.TaskCreate_validate "created test task"
    = Returned {| schemas.text := "created test task" |} /\
  orm.contains_nul "created test task" = false /\
  exists store' t,
    api.app (api.POST_tasks "created test task") (at_clock 7) create_db_tables
      = (store', Returned (201, api.OneTask t)) /\
    api.get_db (crud.get_task (id t)) (at_clock 9) store'
      = (store', Returned (Some t)) /\
    api.app (api.GET_task (id t)) (at_clock 9) store'
      = (store', Returned (200, api.OneTask t)) /\
    text t = "created test task"%string /\ done t = false /\
    created_at t = datetime_now (at_clock 7) /\
    datetime_now (at_clock 7) <= created_at t.
Proof.
  assert (Hwf : well_formed create_db_tables)
    by (split; [constructor | constructor]).
  assert (Hv : schemas.TaskCreate_validate "created test task"
               = Returned {| schemas.text := "created test task" |})
    by reflexivity.
  assert (Hnul : orm.contains_nul "created test task" = false) by reflexivity.
  assert (Hseq : sequence_left create_db_tables)
    by (unfold sequence_left, int_max; cbn; lia).
  split; [exact Hwf|]. split; [exact Hseq|]. split; [exact Hv|].
  split; [exact Hnul|].
  exact (C4_create_then_get create_db_tables (at_clock 7) (at_clock 9)
           "created test task" _ Hwf Hseq Hv Hnul).
Defined.

(** C4 as stated fails for a valid text that holds U+0000: the text passes
    validation, the INSERT cannot be sent, the commit raises, the request
    is answered 500 and no task is stored, so there is no id to get.  It
    fails as well, for any valid text, once the sequence has handed out
    the last id an integer column can hold. *)
Lemma C4_counterexample :
  (schemas.TaskCreate_validate text_with_nul
     = Returned {| schemas.text := text_with_nul |} /\
   api.app (api.POST_tasks text_with_nul) (at_clock 7) create_db_tables
     = (create_db_tables, Raised ValueError) /\
   api.status_of (snd (api.app (api.POST_tasks text_with_nul) (at_clock 7)
                         create_db_tables)) = 500) /\
  (schemas.TaskCreate_validate "created test task"
     = Returned {| schemas.text := "created test task" |} /\
   well_formed sequence_exhausted /\
   api.app (api.POST_tasks "created test task") (at_clock 7) sequence_exhausted
     = (sequence_exhausted, Raised DataError)).
Proof.
  split; [repeat split|].
  split; [reflexivity|]. split; [split; constructor | reflexivity].
Qed.

(** ** The text that is stored *)

(** C9: whenever a create or an update-text succeeds, the task it answers
    with is the stored one and its text is the string the client sent,
    character for character; nothing is trimmed on the way to the table. *)
Theorem C9_text_is_stored_as_sent (store : Database) (now : Env)
  (task_id : Z) (body_text : string) :
  well_formed store ->
  on_success (api.app (api.POST_tasks body_text) now store)
    (fun store' t =>
       store' = with_row store t /\ lookup store' (id t) = Some t /\
       text t = body_text) /\
  on_success (api.app (api.PUT_task_text task_id body_text) now store)
    (fun store' t => lookup store' task_id = Some t /\ text t = body_text).
Proof.
  intros Hwf. split.
  - rewrite app_POST_tasks_cases.
    destruct (schemas.TaskCreate_validate body_text) as [task|e]; [|exact I].
    destruct (orm.contains_nul body_text); [exact I|].
    destruct (int_max <? tasks_id_seq store); [exact I|].
    rewrite (lookup_inserted store body_text now Hwf).
    cbn [on_success]. split; [reflexivity|].
    split; [cbn [id inserted]; now apply lookup_inserted | reflexivity].
  - rewrite app_PUT_task_text.
    destruct (schemas.TaskUpdateText_validate body_text); [|exact I].
    destruct (lookup store task_id) as [t|] eqn:Ht; [|exact I].
    destruct (orm.contains_nul body_text); [exact I|].
    cbn [on_success]. split; [|reflexivity].
    unfold lookup, with_tasks, text_updated. cbn [tasks].
    rewrite (first_filter_id_map (fun r => orm.with_text r body_text) task_id
               (tasks store) (fun r => eq_refl)).
    unfold lookup in Ht. now rewrite Ht.
Qed.

Lemma C9_text_is_stored_as_sent_witness :
  well_formed one_task /\
  api.app (api.POST_tasks "  hi  ") (at_clock 8) one_task
    = (with_row one_task
         {| id := 2; text := "  hi  "; done := false; created_at := 8 |},
       Returned (201, api.OneTask
                        {| id := 2; text := "  hi  "; done := false;
                           created_at := 8 |})) /\
  api.app (api.PUT_task_text 1 "  hi  ") (at_clock 8) one_task
    = (with_tasks one_task
         [{| id := 1; text := "  hi  "; done := false; created_at := 3 |}],
       Returned (200, api.OneTask
                        {| id := 1; text := "  hi  "; done := false;
                           created_at := 3 |})) /\
  on_success (api.app (api.POST_tasks "  hi  ") (at_clock 8) one_task)
    (fun store' t =>
       store' = with_row one_task t /\ lookup store' (id t) = Some t /\
       text t = "  hi  "%string) /\
  on_success (api.app (api.PUT_task_text 1 "  hi  ") (at_clock 8) one_task)
    (fun store' t => lookup store' 1 = Some t /\ text t = "  hi  "%string).
Proof.
  assert (Hwf : well_formed one_task).
  { split.
    - cbn. constructor; [cbn; tauto | constructor].
    - constructor; [cbn; lia | constructor]. }
  split; [exact Hwf|]. split; [reflexivity|]. split; [reflexivity|].
  exact (C9_text_is_stored_as_sent one_task (at_clock 8) 1 "  hi  " Hwf).
Defined.

(** ** Texts that are blank, or long only with their padding *)

(** C1, evaluated where the code and the claim part: a text made of one
    blank is empty once trimmed, yet it validates, the create stores it and
    the update-text stores it; a text of one blank and 255 letters has 255
    characters once trimmed, yet it is refused as too long.  Texts of
    length 0 and 256 are refused and texts of length 1 and 255 accepted. *)
Theorem C1_blank_text_is_accepted (now : Env) :
  schemas.trim " " = EmptyString /\
  api.app (api.POST_tasks " ") now create_db_tables
    = ({| tasks := [{| id := 1; text := " "; done := false;
                       created_at := datetime_now now |}];
          tasks_id_seq := 2 |},
       Returned (201, api.OneTask {| id := 1; text := " "; done := false;
                                     created_at := datetime_now now |})) /\
  api.app (api.PUT_task_text 1 " ") now one_task
    = ({| tasks := [{| id := 1; text := " "; done := false; created_at := 3 |}];
          tasks_id_seq := 2 |},
       Returned (200, api.OneTask {| id := 1; text := " "; done := false;
                                     created_at := 3 |})) /\
  String.length (schemas.trim (String " " (letters 255))) = 255%nat /\
  schemas.TaskBase_validate (String " " (letters 255))
    = Raised (RequestValidationError "string_too_long") /\
  schemas.TaskBase_validate EmptyString
    = Raised (RequestValidationError "string_too_short") /\
  schemas.TaskBase_validate (letters 256)
    = Raised (RequestValidationError "string_too_long") /\
  schemas.TaskBase_validate (letters 1) = Returned {| schemas.text := letters 1 |} /\
  schemas.TaskBase_validate (letters 255)
    = Returned {| schemas.text := letters 255 |}.
Proof.
  repeat split; vm_compute; reflexivity.
Qed.

(** ** Listing and bulk delete, on the store *)

Lemma run_get_tasks (store : Database) (now : Env) (skip limit : Z) :
  api.get_db (crud.get_tasks (Some skip) (Some limit)) now store =
  (store,
   if (skip <? 0) || (bigint_max <? skip) then Raised DataError
   else if (limit <? 0) || (bigint_max <? limit) then Raised DataError
   else Returned (firstn (Z.to_nat limit)
                    (skipn (Z.to_nat skip)
                       (orm.sort_desc (tie_rank now) (tasks store))))).
Proof.
  unfold api.get_db, crud.get_tasks, orm.bind, orm.query_Task,
    orm.order_by_desc_created_at, orm.offset, orm.limit, orm.ret, orm.raise,
    orm.SessionLocal, orm.close, crud.or_default.
  cbn [orm.working orm.committed orm.env].
  destruct ((skip <? 0) || (bigint_max <? skip)); [reflexivity|].
  destruct ((limit <? 0) || (bigint_max <? limit)); reflexivity.
Qed.

Lemma run_read_tasks (store : Database) (now : Env) (skip limit : option Z) :
  api.get_db (api.read_tasks skip limit) now store =
  api.get_db (crud.get_tasks (Some (crud.or_default 0 skip))
                             (Some (crud.or_default 10 limit))) now store.
Proof.
  unfold api.read_tasks, api.get_db, orm.bind, orm.ret.
  destruct (crud.get_tasks _ _ _) as [db' [l|e]]; reflexivity.
Qed.

Lemma for_each_delete (l : list Task) (db : orm.Session) (n : Z) :
  orm.for_each l
    (fun task deleted_count =>
       orm.bind (orm.delete task) (fun _ => orm.ret (deleted_count + 1))) n db =
  (orm.with_working db
     (with_tasks (orm.working db) (delete_all l (tasks (orm.working db)))),
   Returned (n + Z.of_nat (List.length l))).
Proof.
  revert db n. induction l as [|t l IH]; intros db n.
  - destruct db as [c [rows seq] k u]. cbn. now rewrite Z.add_0_r.
  - cbn [orm.for_each]. unfold orm.bind at 1. unfold orm.bind at 1.
    cbn [orm.delete orm.ret]. rewrite IH.
    destruct db as [c [rows seq] k u]. cbn -[Z.of_nat Z.add].
    f_equal. f_equal. lia.
Qed.

Lemma run_delete_completed_tasks (store : Database) (now : Env) :
  api.get_db crud.delete_completed_tasks now store =
  (with_tasks store (delete_all (orm.filter_done (tasks store)) (tasks store)),
   Returned (Z.of_nat (List.length (orm.filter_done (tasks store))))).
Proof.
  unfold api.get_db, crud.delete_completed_tasks.
  unfold orm.bind at 1. cbn [orm.query_Task orm.SessionLocal orm.working].
  unfold orm.bind at 1. rewrite for_each_delete.
  reflexivity.
Qed.

(** ** Updates touch one field *)

Lemma Forall2_map_same {A : Type} (R : A -> A -> Prop) (f : A -> A) (l : list A) :
  (forall a, R a (f a)) -> Forall2 R l (map f l).
Proof.
  intros H. induction l as [|a l IH]; cbn; constructor; [apply H | exact IH].
Qed.

Lemma Forall2_same {A : Type} (R : A -> A -> Prop) (l : list A) :
  (forall a, R a a) -> Forall2 R l l.
Proof.
  intros H. induction l as [|a l IH]; constructor; [apply H | exact IH].
Qed.

(** C8: for the id of a stored task, [update_task_status] leaves every row
    its id, text and created_at and changes done only in the row with that
    id; [update_task_text] leaves every row its id, done and created_at and
    changes at most the text of the row with that id: to the new text when
    the update goes through, and not at all when the new text holds U+0000
    and the commit raises.  The number and the order of the rows and the
    id sequence stay as they were. *)
Theorem C8_updates_change_one_field (store : Database) (now : Env)
  (task_id : Z) (d : bool) (s : string) :
  In task_id (ids store) ->
  (exists store' t,
     api.get_db (crud.update_task_status task_id d) now store
       = (store', Returned (Some t)) /\
     lookup store' task_id = Some t /\
     tasks_id_seq store' = tasks_id_seq store /\
     Forall2 (done_changed_only task_id d) (tasks store) (tasks store')) /\
  (exists store' r,
     api.get_db (crud.update_task_text task_id s) now store = (store', r) /\
     tasks_id_seq store' = tasks_id_seq store /\
     Forall2 (text_differs_only task_id) (tasks store) (tasks store') /\
     if orm.contains_nul s then r = Raised ValueError /\ store' = store
     else exists t,
         r = Returned (Some t) /\
         lookup store' task_id = Some t /\
         Forall2 (text_changed_only task_id s) (tasks store) (tasks store')).
Proof.
  intros Hin. destruct (lookup_present store task_id Hin) as [t Ht]. split.
  - exists (with_tasks store (status_updated task_id d (tasks store))),
           (orm.with_done t d).
    split; [now apply run_update_task_status_present|].
    split.
    + unfold lookup, with_tasks, status_updated. cbn [tasks].
      rewrite (first_filter_id_map (fun r => orm.with_done r d) task_id
                 (tasks store) (fun r => eq_refl)).
      unfold lookup in Ht. now rewrite Ht.
    + split; [reflexivity|]. cbn [tasks with_tasks]. unfold status_updated.
      apply Forall2_map_same. intros r. unfold done_changed_only.
      destruct (id r =? task_id); cbn; repeat split; reflexivity.
  - destruct (orm.contains_nul s) eqn:Hnul.
    + exists store, (Raised ValueError).
      split; [now apply (run_update_task_text_nul store now task_id s t)|].
      split; [reflexivity|].
      split; [|now split].
      apply Forall2_same. intros r. unfold text_differs_only.
      destruct (id r =? task_id); repeat split; reflexivity.
    + exists (with_tasks store (text_updated task_id s (tasks store))),
             (Returned (Some (orm.with_text t s))).
      split; [now apply run_update_task_text_present|].
      split; [reflexivity|].
      cbn [tasks with_tasks]. unfold text_updated.
      split.
      * apply Forall2_map_same. intros r. unfold text_differs_only.
        destruct (id r =? task_id); cbn; repeat split; reflexivity.
      * exists (orm.with_text t s). split; [reflexivity|].
        split.
        -- unfold lookup, with_tasks. cbn [tasks].
           rewrite (first_filter_id_map (fun r => orm.with_text r s) task_id
                      (tasks store) (fun r => eq_refl)).
           unfold lookup in Ht. now rewrite Ht.
        -- apply Forall2_map_same. intros r. unfold text_changed_only.
           destruct (id r =? task_id); cbn; repeat split; reflexivity.
Qed.

Lemma C8_updates_change_one_field_witness :
  In 2 (ids two_tasks) /\
  (exists store' t,
     api.get_db (crud.update_task_status 2 true) (at_clock 9) two_tasks
       = (store', Returned (Some t)) /\
     lookup store' 2 = Some t /\
     tasks_id_seq store' = tasks_id_seq two_tasks /\
     Forall2 (done_changed_only 2 true) (tasks two_tasks) (tasks store')) /\
  (exists store' r,
     api.get_db (crud.update_task_text 2 "updated text") (at_clock 9) two_tasks
       = (store', r) /\
     tasks_id_seq store' = tasks_id_seq two_tasks /\
     Forall2 (text_differs_only 2) (tasks two_tasks) (tasks store') /\
     if orm.contains_nul "updated text" then r = Raised ValueError /\ store' = two_tasks
     else exists t,
         r = Returned (Some t) /\
         lookup store' 2 = Some t /\
         Forall2 (text_changed_only 2 "updated text") (tasks two_tasks)
           (tasks store')).
Proof.
  assert (Hin : In 2 (ids two_tasks)) by (cbn; tauto).
  split; [exact Hin|].
  exact (C8_updates_change_one_field two_tasks (at_clock 9) 2 true
           "updated text" Hin).
Defined.

(** ** Failure leaves the store alone *)

(** C6: whenever a request is answered with an exception -- the 404 of a
    missing id, the 422 of a text that does not validate, or any other --
    the store after the request is the store before it. *)
Theorem C6_failed_request_keeps_store (r : api.Request) (now : Env)
  (store store' : Database) (e : Exception) :
  api.app r now store = (store', Raised e) -> store' = store.
Proof.
  destruct r as [skip limit| |task_id|body_text|task_id d|task_id body_text|task_id].
  - unfold api.app. rewrite run_read_tasks, run_get_tasks. cbn [api.respond].
    destruct (_ || _); [|destruct (_ || _)]; intros H; now injection H.
  - unfold api.app, api.delete_completed_tasks_endpoint.
    pose proof (run_delete_completed_tasks store now) as Hrun.
    unfold api.get_db, orm.bind in *.
    destruct (crud.delete_completed_tasks (orm.SessionLocal store now))
      as [db' o].
    injection Hrun as H1 H2. subst o. cbn. discriminate.
  - rewrite app_GET_task. destruct (lookup store task_id);
      intros H; [discriminate | now injection H].
  - rewrite app_POST_tasks_cases.
    destruct (schemas.TaskCreate_validate body_text) as [task|e'];
      [|intros H; now injection H].
    destruct (orm.contains_nul body_text); [intros H; now injection H|].
    destruct (int_max <? tasks_id_seq store); [intros H; now injection H|].
    destruct (lookup_inserted_any store body_text now) as [t ->].
    discriminate.
  - rewrite app_PUT_task_status. destruct (lookup store task_id);
      intros H; [discriminate | now injection H].
  - rewrite app_PUT_task_text.
    destruct (schemas.TaskUpdateText_validate body_text);
      [destruct (lookup store task_id); [destruct (orm.contains_nul body_text)|]|];
      intros H; try discriminate; now injection H.
  - rewrite app_DELETE_task. destruct (lookup store task_id);
      intros H; [discriminate | now injection H].
Qed.

Lemma C6_failed_request_keeps_store_witness :
  api.app (api.PUT_task_text 1 EmptyString) (at_clock 9) one_task
    = (one_task, Raised (RequestValidationError "string_too_short")) /\
  api.app (api.DELETE_task 7) (at_clock 9) one_task
    = (one_task, Raised (HTTPException 404 "Task not found")) /\
  one_task = one_task.
Proof.
  assert (H : api.app (api.DELETE_task 7) (at_clock 9) one_task
              = (one_task, Raised (HTTPException 404 "Task not found")))
    by reflexivity.
  split; [reflexivity|]. split; [exact H|].
  exact (C6_failed_request_keeps_store (api.DELETE_task 7) (at_clock 9)
           one_task one_task _ H).
Defined.

(** ** Deleting the completed tasks *)

Lemma filter_filter_andb {A : Type} (p q : A -> bool) (l : list A) :
  filter p (filter q l) = filter (fun a => q a && p a) l.
Proof.
  induction l as [|a l IH]; cbn; [reflexivity|].
  destruct (q a); cbn; [destruct (p a)|]; now rewrite IH.
Qed.

Lemma delete_all_filter (l rows : list Task) :
  delete_all l rows =
  filter (fun r => negb (existsb (fun t => id r =? id t) l)) rows.
Proof.
  revert rows. induction l as [|t l IH]; intros rows; cbn.
  - induction rows as [|r rows IHr]; cbn; [reflexivity | now rewrite <- IHr].
  - rewrite IH. unfold without_id. rewrite filter_filter_andb.
    apply filter_ext. intros r. now rewrite negb_orb.
Qed.

Lemma same_id_same_row (rows : list Task) (r t : Task) :
  NoDup (map id rows) -> In r rows -> In t rows -> id r = id t -> r = t.
Proof.
  induction rows as [|a rows IH]; cbn; [tauto|].
  intros Hnd Hr Ht E. inversion Hnd as [|? ? Hnotin Hnd']; subst.
  destruct Hr as [->|Hr], Ht as [->|Ht].
  - reflexivity.
  - exfalso. apply Hnotin. rewrite E. now apply in_map.
  - exfalso. apply Hnotin. rewrite <- E. now apply in_map.
  - now apply IH.
Qed.

Lemma done_row_is_selected (rows : list Task) (r : Task) :
  NoDup (map id rows) -> In r rows ->
  existsb (fun t => id r =? id t) (orm.filter_done rows) = done r.
Proof.
  intros Hnd Hr. apply eq_true_iff_eq. rewrite existsb_exists. split.
  - intros [t [Ht E]]. unfold orm.filter_done in Ht.
    apply filter_In in Ht as [Ht Hd]. apply Z.eqb_eq in E.
    rewrite (same_id_same_row rows r t Hnd Hr Ht E).
    now destruct (done t).
  - intros Hd. exists r. split; [|apply Z.eqb_refl].
    unfold orm.filter_done. apply filter_In. split; [exact Hr|].
    now rewrite Hd.
Qed.

Lemma delete_all_done (rows : list Task) :
  NoDup (map id rows) ->
  delete_all (orm.filter_done rows) rows = filter (fun t => negb (done t)) rows.
Proof.
  intros Hnd. rewrite delete_all_filter. apply filter_ext_in.
  intros r Hr. now rewrite done_row_is_selected.
Qed.

Lemma filter_done_of_not_done (rows : list Task) :
  orm.filter_done (filter (fun t => negb (done t)) rows) = [].
Proof.
  unfold orm.filter_done. rewrite filter_filter_andb.
  induction rows as [|r rows IH]; cbn; [reflexivity|].
  destruct (done r); cbn; exact IH.
Qed.

Lemma filter_done_none (rows : list Task) :
  Forall (fun t => done t = false) rows -> orm.filter_done rows = [].
Proof.
  induction 1 as [|r rows Hr _ IH]; cbn; [reflexivity|].
  rewrite Hr. cbn. exact IH.
Qed.

(** C5: [delete_completed_tasks] leaves exactly the rows with done = false,
    in their order, and returns the number of rows with done = true, an
    integer that is not negative; called again at once it returns 0 and
    leaves the store as the first call left it. *)
Theorem C5_delete_completed_twice (store : Database) (now later : Env) :
  well_formed store ->
  exists store',
    api.get_db crud.delete_completed_tasks now store
      = (store', Returned (Z.of_nat (List.length (orm.filter_done (tasks store))))) /\
    tasks store' = filter (fun t => negb (done t)) (tasks store) /\
    tasks_id_seq store' = tasks_id_seq store /\
    0 <= Z.of_nat (List.length (orm.filter_done (tasks store))) /\
    api.get_db crud.delete_completed_tasks later store' = (store', Returned 0).
Proof.
  intros [Hnd _].
  exists (with_tasks store (filter (fun t => negb (done t)) (tasks store))).
  split.
  - rewrite run_delete_completed_tasks. now rewrite delete_all_done.
  - split; [reflexivity|]. split; [reflexivity|]. split; [lia|].
    rewrite run_delete_completed_tasks. cbn [tasks with_tasks].
    rewrite filter_done_of_not_done. reflexivity.
Qed.

(** With no completed task the count is 0 and no row goes. *)
Lemma delete_completed_tasks_none (store : Database) (now : Env) :
  Forall (fun t => done t = false) (tasks store) ->
  api.get_db crud.delete_completed_tasks now store
    = (with_tasks store (tasks store), Returned 0).
Proof.
  intros H. rewrite run_delete_completed_tasks.
  now rewrite (filter_done_none _ H).
Qed.

Example delete_completed_of_three :
  api.get_db crud.delete_completed_tasks (at_clock 7) two_of_three_done
    = ({| tasks := [{| id := 1; text := "a"; done := false; created_at := 3 |}];
          tasks_id_seq := 5 |}, Returned 2).
Proof. reflexivity. Qed.

Lemma C5_delete_completed_twice_witness :
  well_formed two_of_three_done /\
  exists store',
    api.get_db crud.delete_completed_tasks (at_clock 7) two_of_three_done
      = (store', Returned (Z.of_nat (List.length (orm.filter_done (tasks two_of_three_done))))) /\
    tasks store' = filter (fun t => negb (done t)) (tasks two_of_three_done) /\
    tasks_id_seq store' = tasks_id_seq two_of_three_done /\
    0 <= Z.of_nat (List.length (orm.filter_done (tasks two_of_three_done))) /\
    api.get_db crud.delete_completed_tasks (at_clock 8) store' = (store', Returned 0).
Proof.
  assert (Hwf : well_formed two_of_three_done).
  { split.
    - cbn. repeat constructor; cbn; intuition lia.
    - repeat constructor; cbn; lia. }
  split; [exact Hwf|].
  exact (C5_delete_completed_twice two_of_three_done (at_clock 7) (at_clock 8) Hwf).
Defined.

(** ** Listing *)

Lemma comes_before_true (rank : Task -> Z) (t u : Task) :
  orm.comes_before rank t u = true -> created_at u <= created_at t.
Proof. unfold orm.comes_before. lia. Qed.

Lemma comes_before_false (rank : Task -> Z) (t u : Task) :
  orm.comes_before rank t u = false -> created_at t <= created_at u.
Proof. unfold orm.comes_before. lia. Qed.

Lemma insert_desc_perm (rank : Task -> Z) (t : Task) (l : list Task) :
  Permutation (orm.insert_desc rank t l) (t :: l).
Proof.
  induction l as [|u l IH]; cbn; [reflexivity|].
  destruct (orm.comes_before rank t u); [reflexivity|].
  rewrite IH. apply perm_swap.
Qed.

Lemma sort_desc_perm (rank : Task -> Z) (rows : list Task) :
  Permutation (orm.sort_desc rank rows) rows.
Proof.
  induction rows as [|r rows IH]; cbn; [reflexivity|].
  rewrite insert_desc_perm. now apply perm_skip.
Qed.

Lemma insert_desc_sorted (rank : Task -> Z) (t : Task) (l : list Task) :
  newest_first l -> newest_first (orm.insert_desc rank t l).
Proof.
  unfold newest_first. induction 1 as [|u l Hs IH Hu]; cbn.
  - constructor; constructor.
  - destruct (orm.comes_before rank t u) eqn:E.
    + apply comes_before_true in E.
      constructor; [now constructor|]. constructor; [exact E|].
      eapply Forall_impl; [|exact Hu]. cbn. intros v Hv. lia.
    + apply comes_before_false in E.
      constructor; [exact IH|].
      apply (Permutation_Forall (Permutation_sym (insert_desc_perm rank t l))).
      constructor; [exact E | exact Hu].
Qed.

Lemma sort_desc_sorted (rank : Task -> Z) (rows : list Task) :
  newest_first (orm.sort_desc rank rows).
Proof.
  induction rows as [|r rows IH]; cbn; [constructor|].
  now apply insert_desc_sorted.
Qed.

Lemma sorted_app_inv (l1 l2 : list Task) :
  newest_first (l1 ++ l2) ->
  newest_first l1 /\ newest_first l2 /\ no_older_than l1 l2.
Proof.
  unfold newest_first, no_older_than.
  induction l1 as [|t l1 IH]; cbn; intros H.
  - repeat split; [constructor | exact H | constructor].
  - inversion H as [|? ? Hs Hall]; subst.
    destruct (IH Hs) as [H1 [H2 H3]].
    apply Forall_app in Hall as [Ha Hb].
    repeat split; [now constructor | exact H2 | now constructor].
Qed.

Lemma page_sorted (skip limit : Z) (newest : list Task) :
  newest_first newest ->
  newest_first (page skip limit newest) /\
  no_older_than (page skip limit newest) (after_page skip limit newest).
Proof.
  intros H. unfold page, after_page.
  rewrite <- (firstn_skipn (Z.to_nat skip) newest) in H.
  apply sorted_app_inv in H as [_ [H _]].
  rewrite <- (firstn_skipn (Z.to_nat limit) (skipn (Z.to_nat skip) newest)) in H.
  apply sorted_app_inv in H as [H1 [_ H2]]. now split.
Qed.

Lemma length_page (skip limit : Z) (newest : list Task) :
  List.length (page skip limit newest) =
  Nat.min (Z.to_nat limit) (List.length newest - Z.to_nat skip).
Proof. unfold page. now rewrite length_firstn, length_skipn. Qed.

Lemma run_get_tasks_page (store : Database) (now : Env) (skip limit : Z) :
  bigint_count skip -> bigint_count limit ->
  api.get_db (crud.get_tasks (Some skip) (Some limit)) now store
  = (store, Returned (page skip limit (orm.sort_desc (tie_rank now) (tasks store)))).
Proof.
  unfold bigint_count. intros Hs Hl. rewrite run_get_tasks.
  destruct (Z.ltb_spec skip 0); [lia|].
  destruct (Z.ltb_spec bigint_max skip); [lia|].
  destruct (Z.ltb_spec limit 0); [lia|].
  destruct (Z.ltb_spec bigint_max limit); [lia|]. reflexivity.
Qed.


(** C3, as the code has it: for skip and limit that are bigint counts (0
    to 2^63 - 1) the listing returns the page [skip, skip + limit) of the
    stored tasks put newest first, where tasks with the same created_at
    follow one another in the order the database chooses; the page is
    itself newest first, holds min(limit, N - skip) of the N stored tasks,
    and no task after the page is newer than a task on it.  With skip = 0
    and limit < N these are the limit most recent tasks. *)
Theorem C3_listing_newest_first (store : Database) (now : Env)
  (skip limit : Z) :
  bigint_count skip -> bigint_count limit ->
  Permutation (orm.sort_desc (tie_rank now) (tasks store)) (tasks store) /\
  newest_first (orm.sort_desc (tie_rank now) (tasks store)) /\
  api.get_db (crud.get_tasks (Some skip) (Some limit)) now store
    = (store, Returned (page skip limit
                          (orm.sort_desc (tie_rank now) (tasks store)))) /\
  api.app (api.GET_tasks (Some skip) (Some limit)) now store
    = (store, Returned (200, api.TaskList
                               (page skip limit
                                  (orm.sort_desc (tie_rank now) (tasks store))))) /\
  newest_first (page skip limit (orm.sort_desc (tie_rank now) (tasks store))) /\
  List.length (page skip limit (orm.sort_desc (tie_rank now) (tasks store)))
    = Nat.min (Z.to_nat limit) (List.length (tasks store) - Z.to_nat skip) /\
  no_older_than
    (page skip limit (orm.sort_desc (tie_rank now) (tasks store)))
    (after_page skip limit (orm.sort_desc (tie_rank now) (tasks store))).
Proof.
  intros Hs Hl.
  pose proof (run_get_tasks_page store now skip limit Hs Hl) as Hrun.
  destruct (page_sorted skip limit _ (sort_desc_sorted (tie_rank now) (tasks store)))
    as [Hp Hq].
  split; [apply sort_desc_perm|].
  split; [apply sort_desc_sorted|].
  split; [exact Hrun|].
  split.
  { unfold api.app. rewrite run_read_tasks. cbn [crud.or_default].
    now rewrite Hrun. }
  split; [exact Hp|].
  split; [|exact Hq].
  rewrite length_page.
  now rewrite (Permutation_length (sort_desc_perm (tie_rank now) (tasks store))).
Qed.

Lemma C3_listing_newest_first_witness :
  bigint_count 0 /\ bigint_count 2 /\
  api.get_db (crud.get_tasks (Some 0) (Some 2)) (at_clock 9) three_tasks
    = (three_tasks,
       Returned [{| id := 3; text := "c"; done := false; created_at := 6 |};
                 {| id := 2; text := "b"; done := false; created_at := 4 |}]) /\
  newest_first (page 0 2 (orm.sort_desc (tie_rank (at_clock 9)) (tasks three_tasks))).
Proof.
  assert (H0 : bigint_count 0) by (unfold bigint_count, bigint_max; lia).
  assert (H2 : bigint_count 2) by (unfold bigint_count, bigint_max; lia).
  split; [exact H0|]. split; [exact H2|].
  pose proof (C3_listing_newest_first three_tasks (at_clock 9) 0 2 H0 H2) as H.
  split; [exact (proj1 (proj2 (proj2 H)))|].
  exact (proj1 (proj2 (proj2 (proj2 (proj2 H))))).
Defined.

(** C3 as stated fails three times.  Two tasks created under one clock
    reading are listed one after the other with equal created_at, so the
    listing is not strictly descending; with N = 2 tasks stored a listing
    with limit 1 < N returns one task, not the N most recent; and a skip of
    2^63, which is >= 0, is no bigint: the query is refused and the
    request answered 500. *)
Lemma C3_counterexample :
  (exists l,
     api.get_db (crud.get_tasks (Some 0) (Some 10)) (at_clock 6)
       two_posts_one_reading
       = (two_posts_one_reading, Returned l) /\
     ~ strictly_newest_first l) /\
  (exists l,
     api.get_db (crud.get_tasks (Some 0) (Some 1)) (at_clock 6)
       two_posts_one_reading
       = (two_posts_one_reading, Returned l) /\
     List.length (tasks two_posts_one_reading) = 2%nat /\
     List.length l <> 2%nat) /\
  (0 <= bigint_max + 1 /\
   api.app (api.GET_tasks (Some (bigint_max + 1)) (Some 10)) (at_clock 6)
     two_posts_one_reading
     = (two_posts_one_reading, Raised DataError) /\
   api.status_of (Raised DataError) = 500).
Proof.
  split; [|split].
  - eexists. split; [reflexivity|].
    unfold strictly_newest_first. intros H.
    inversion H as [|? ? _ Hall]; subst.
    inversion Hall as [|? ? Hlt _]; subst.
    cbn in Hlt. lia.
  - eexists. split; [reflexivity|]. split; [reflexivity|].
    cbn. discriminate.
  - split; [unfold bigint_max; lia|]. split; reflexivity.
Qed.

(** ** The default page *)

(** C10: a listing without parameters runs with skip = 0 and limit = 10;
    it returns the first ten tasks of the newest-first order, that is
    min(10, N) tasks, never more than ten. *)
Theorem C10_default_page (store : Database) (now : Env) :
  api.get_db (crud.get_tasks None None) now store
    = api.get_db (crud.get_tasks (Some 0) (Some 10)) now store /\
  api.app (api.GET_tasks None None) now store
    = api.app (api.GET_tasks (Some 0) (Some 10)) now store /\
  api.app (api.GET_tasks None None) now store
    = (store, Returned (200, api.TaskList
                               (firstn 10 (orm.sort_desc (tie_rank now)
                                             (tasks store))))) /\
  List.length (firstn 10 (orm.sort_desc (tie_rank now) (tasks store)))
    = Nat.min 10 (List.length (tasks store)) /\
  (List.length (firstn 10 (orm.sort_desc (tie_rank now) (tasks store))) <= 10)%nat.
Proof.
  split; [reflexivity|]. split; [reflexivity|].
  split.
  - unfold api.app. rewrite run_read_tasks, run_get_tasks. reflexivity.
  - rewrite length_firstn.
    rewrite (Permutation_length (sort_desc_perm (tie_rank now) (tasks store))).
    split; [reflexivity | lia].
Qed.

(** Eleven stored tasks, ten listed. *)
Example default_page_of_eleven :
  let store :=
    fst (api.serve
           (map (fun n => (api.POST_tasks "task", at_clock (Z.of_nat n))) (seq 1 11))
           create_db_tables) in
  List.length (tasks store) = 11%nat /\
  exists l,
    snd (api.app (api.GET_tasks None None) (at_clock 20) store)
      = Returned (200, api.TaskList l) /\
    List.length l = 10%nat /\
    map id l = [11; 10; 9; 8; 7; 6; 5; 4; 3; 2].
Proof.
  split; [reflexivity|]. eexists. split; [reflexivity|].
  split; reflexivity.
Qed.

(** ** Four tasks, two completed *)

(** C7, as the code has it: from the empty store, create A, B, C and D in
    that order, C under a later clock reading than A, mark B and D done,
    delete the completed tasks: the answer counts 2, and the listing that
    follows is [C; A], whatever tie order the database chooses. *)
Theorem C7_four_tasks_two_completed (a b c d : string)
  (eA eB eC eD e5 e6 e7 e8 : Env) :
  (1 <= String.length a <= 255)%nat -> orm.contains_nul a = false ->
  (1 <= String.length b <= 255)%nat -> orm.contains_nul b = false ->
  (1 <= String.length c <= 255)%nat -> orm.contains_nul c = false ->
  (1 <= String.length d <= 255)%nat -> orm.contains_nul d = false ->
  datetime_now eA < datetime_now eC ->
  api.serve (four_tasks_two_completed a b c d eA eB eC eD e5 e6 e7 e8)
    create_db_tables
  = ({| tasks := [{| id := 1; text := a; done := false;
                     created_at := datetime_now eA |};
                  {| id := 3; text := c; done := false;
                     created_at := datetime_now eC |}];
        tasks_id_seq := 5 |},
     [Returned (201, api.OneTask
                       {| id := 1; text := a; done := false;
                          created_at := datetime_now eA |});
      Returned (201, api.OneTask
                       {| id := 2; text := b; done := false;
                          created_at := datetime_now eB |});
      Returned (201, api.OneTask
                       {| id := 3; text := c; done := false;
                          created_at := datetime_now eC |});
      Returned (201, api.OneTask
                       {| id := 4; text := d; done := false;
                          created_at := datetime_now eD |});
      Returned (200, api.OneTask
                       {| id := 2; text := b; done := true;
                          created_at := datetime_now eB |});
      Returned (200, api.OneTask
                       {| id := 4; text := d; done := true;
                          created_at := datetime_now eD |});
      Returned (200, api.Message
                       {| schemas.message := "Removed 2 completed tasks." |});
      Returned (200, api.TaskList
                       [{| id := 3; text := c; done := false;
                           created_at := datetime_now eC |};
                        {| id := 1; text := a; done := false;
                           created_at := datetime_now eA |}])]).
Proof.
  intros Ha Na Hb Nb Hc Nc Hd Nd Hclock.
  assert (Va := proj2 (TaskBase_validate_Returned a _) (conj Ha eq_refl)).
  assert (Vb := proj2 (TaskBase_validate_Returned b _) (conj Hb eq_refl)).
  assert (Vc := proj2 (TaskBase_validate_Returned c _) (conj Hc eq_refl)).
  assert (Vd := proj2 (TaskBase_validate_Returned d _) (conj Hd eq_refl)).
  unfold four_tasks_two_completed, api.serve, api.app, schemas.TaskCreate_validate,
    api.create_task, api.get_db, crud.create_task, orm.bind, orm.add.
  rewrite Va. cbn -[orm.contains_nul]. rewrite Na. cbn -[orm.contains_nul].
  rewrite Vb. cbn -[orm.contains_nul]. rewrite Nb. cbn -[orm.contains_nul].
  rewrite Vc. cbn -[orm.contains_nul]. rewrite Nc. cbn -[orm.contains_nul].
  rewrite Vd. cbn -[orm.contains_nul]. rewrite Nd. cbn.
  unfold orm.comes_before. cbn.
  destruct (Z.ltb_spec (datetime_now eC) (datetime_now eA)); [lia|].
  destruct (Z.eqb_spec (datetime_now eC) (datetime_now eA)); [lia|].
  cbn.
  destruct (Z.ltb_spec (datetime_now eA) (datetime_now eC)); [|lia].
  reflexivity.
Qed.

Lemma one_letter_is_valid (s : string) :
  String.length s = 1%nat -> (1 <= String.length s <= 255)%nat.
Proof. intros ->. lia. Defined.

Lemma C7_four_tasks_two_completed_witness :
  (1 <= String.length "A" <= 255)%nat /\ orm.contains_nul "A" = false /\
  datetime_now (at_clock 1) < datetime_now (at_clock 3) /\
  snd (api.serve
         (four_tasks_two_completed "A" "B" "C" "D"
            (at_clock 1) (at_clock 2) (at_clock 3) (at_clock 4)
            (at_clock 5) (at_clock 6) (at_clock 7) (at_clock 8))
         create_db_tables)
  = [Returned (201, api.OneTask
                      {| id := 1; text := "A"; done := false; created_at := 1 |});
     Returned (201, api.OneTask
                      {| id := 2; text := "B"; done := false; created_at := 2 |});
     Returned (201, api.OneTask
                      {| id := 3; text := "C"; done := false; created_at := 3 |});
     Returned (201, api.OneTask
                      {| id := 4; text := "D"; done := false; created_at := 4 |});
     Returned (200, api.OneTask
                      {| id := 2; text := "B"; done := true; created_at := 2 |});
     Returned (200, api.OneTask
                      {| id := 4; text := "D"; done := true; created_at := 4 |});
     Returned (200, api.Message
                      {| schemas.message := "Removed 2 completed tasks." |});
     Returned (200, api.TaskList
                      [{| id := 3; text := "C"; done := false; created_at := 3 |};
                       {| id := 1; text := "A"; done := false; created_at := 1 |}])].
Proof.
  assert (Hclock : datetime_now (at_clock 1) < datetime_now (at_clock 3))
    by (cbn; lia).
  split; [exact (one_letter_is_valid "A" eq_refl)|].
  split; [reflexivity|]. split; [exact Hclock|].
  exact (f_equal snd
           (C7_four_tasks_two_completed "A" "B" "C" "D"
              (at_clock 1) (at_clock 2) (at_clock 3) (at_clock 4)
              (at_clock 5) (at_clock 6) (at_clock 7) (at_clock 8)
              (one_letter_is_valid "A" eq_refl) eq_refl
              (one_letter_is_valid "B" eq_refl) eq_refl
              (one_letter_is_valid "C" eq_refl) eq_refl
              (one_letter_is_valid "D" eq_refl) eq_refl
              Hclock)).
Defined.

(** C7 as stated fails when A and C are created under one clock reading:
    the two remaining tasks tie, the order of the listing is the
    database's choice, and where it hands out tied rows by ascending id
    the listing is [A; C]. *)
Lemma C7_counterexample :
  snd (api.serve
         (four_tasks_two_completed "A" "B" "C" "D"
            (at_clock 5) (at_clock 5) (at_clock 5) (at_clock 5)
            (at_clock 6) (at_clock 7) (at_clock 8) (at_clock 9))
         create_db_tables)
  = [Returned (201, api.OneTask
                      {| id := 1; text := "A"; done := false; created_at := 5 |});
     Returned (201, api.OneTask
                      {| id := 2; text := "B"; done := false; created_at := 5 |});
     Returned (201, api.OneTask
                      {| id := 3; text := "C"; done := false; created_at := 5 |});
     Returned (201, api.OneTask
                      {| id := 4; text := "D"; done := false; created_at := 5 |});
     Returned (200, api.OneTask
                      {| id := 2; text := "B"; done := true; created_at := 5 |});
     Returned (200, api.OneTask
                      {| id := 4; text := "D"; done := true; created_at := 5 |});
     Returned (200, api.Message
                      {| schemas.message := "Removed 2 completed tasks." |});
     Returned (200, api.TaskList
                      [{| id := 1; text := "A"; done := false; created_at := 5 |};
                       {| id := 3; text := "C"; done := false; created_at := 5 |}])]
  /\ [{| id := 1; text := "A"; done := false; created_at := 5 |};
      {| id := 3; text := "C"; done := false; created_at := 5 |}]
     <> [{| id := 3; text := "C"; done := false; created_at := 5 |};
         {| id := 1; text := "A"; done := false; created_at := 5 |}].
Proof. split; [reflexivity | discriminate]. Qed.

(** ** The primary key stays a key *)

Lemma well_formed_create_db_tables : well_formed create_db_tables.
Proof. split; constructor. Qed.

Lemma well_formed_with_row (store : Database) (new_text : string) (now : Env) :
  well_formed store -> well_formed (with_row store (inserted store new_text now)).
Proof.
  intros Hwf. pose proof (fresh_id store Hwf) as Hfresh.
  destruct Hwf as [Hnd Hlt]. split.
  - unfold ids, with_row in *. cbn [tasks]. rewrite map_app. cbn.
    apply NoDup_rev in Hnd. apply (NoDup_cons (tasks_id_seq store)) in Hnd.
    + apply NoDup_rev in Hnd. cbn in Hnd. now rewrite rev_involutive in Hnd.
    + now rewrite <- in_rev.
  - unfold with_row. cbn [tasks tasks_id_seq]. apply Forall_app. split.
    + eapply Forall_impl; [|exact Hlt]. cbn. intros t Ht. lia.
    + constructor; [cbn; lia | constructor].
Qed.

Lemma well_formed_filter (store : Database) (p : Task -> bool) :
  well_formed store -> well_formed (with_tasks store (filter p (tasks store))).
Proof.
  intros [Hnd Hlt]. split.
  - unfold ids, with_tasks in *. cbn [tasks].
    induction (tasks store) as [|r rows IH]; cbn; [constructor|].
    inversion Hnd as [|? ? Hnotin Hnd']; subst.
    inversion Hlt as [|? ? _ Hlt']; subst.
    destruct (p r); cbn; [|now apply IH].
    constructor; [|now apply IH].
    intros Hin. apply Hnotin. apply in_map_iff in Hin as [t [E Ht]].
    apply filter_In in Ht as [Ht _]. rewrite <- E. now apply in_map.
  - unfold with_tasks. cbn [tasks tasks_id_seq].
    rewrite Forall_forall in *. intros t Ht.
    apply filter_In in Ht as [Ht _]. now apply Hlt.
Qed.

Lemma well_formed_map (store : Database) (g : Task -> Task) :
  (forall r, id (g r) = id r) ->
  well_formed store -> well_formed (with_tasks store (map g (tasks store))).
Proof.
  intros Hg [Hnd Hlt]. split.
  - unfold ids, with_tasks in *. cbn [tasks]. rewrite map_map.
    now rewrite (map_ext _ id Hg).
  - unfold with_tasks. cbn [tasks tasks_id_seq].
    rewrite Forall_forall in *. intros t Ht.
    apply in_map_iff in Ht as [r [<- Hr]]. rewrite Hg. now apply Hlt.
Qed.

(** Every request leaves the table with distinct ids below the sequence. *)
Theorem well_formed_app (r : api.Request) (now : Env) (store : Database) :
  well_formed store -> well_formed (fst (api.app r now store)).
Proof.
  intros Hwf.
  destruct r as [skip limit| |task_id|body_text|task_id d|task_id body_text|task_id].
  - unfold api.app. rewrite run_read_tasks, run_get_tasks. cbn [api.respond].
    destruct (_ || _); [|destruct (_ || _)]; exact Hwf.
  - unfold api.app, api.delete_completed_tasks_endpoint.
    pose proof (run_delete_completed_tasks store now) as Hrun.
    unfold api.get_db, orm.bind in *.
    destruct (crud.delete_completed_tasks (orm.SessionLocal store now))
      as [db' o].
    injection Hrun as H1 H2. subst o. cbn. rewrite H1.
    rewrite delete_all_filter. now apply well_formed_filter.
  - rewrite app_GET_task. destruct (lookup store task_id); exact Hwf.
  - rewrite app_POST_tasks_cases.
    destruct (schemas.TaskCreate_validate body_text) as [task|e]; [|exact Hwf].
    destruct (orm.contains_nul body_text); [exact Hwf|].
    destruct (int_max <? tasks_id_seq store); [exact Hwf|].
    now apply well_formed_with_row.
  - rewrite app_PUT_task_status. destruct (lookup store task_id); [|exact Hwf].
    cbn [fst]. unfold status_updated. apply well_formed_map; [|exact Hwf].
    intros r. now destruct (id r =? task_id).
  - rewrite app_PUT_task_text.
    destruct (schemas.TaskUpdateText_validate body_text); [|exact Hwf].
    destruct (lookup store task_id); [|exact Hwf].
    destruct (orm.contains_nul body_text); [exact Hwf|].
    cbn [fst]. unfold text_updated. apply well_formed_map; [|exact Hwf].
    intros r. now destruct (id r =? task_id).
  - rewrite app_DELETE_task. destruct (lookup store task_id); [|exact Hwf].
    cbn [fst]. unfold without_id. now apply well_formed_filter.
Qed.

(** So is every store the application can reach from the fresh table. *)
Theorem well_formed_serve (rs : list (api.Request * Env)) (store : Database) :
  well_formed store -> well_formed (fst (api.serve rs store)).
Proof.
  revert store. induction rs as [|[r now] rs IH]; intros store Hwf; cbn.
  - exact Hwf.
  - pose proof (well_formed_app r now store Hwf) as H1.
    destruct (api.app r now store) as [store' resp]. cbn [fst] in H1.
    specialize (IH store' H1).
    destruct (api.serve rs store') as [store'' resps]. exact IH.
Qed.

Lemma well_formed_witness :
  well_formed create_db_tables /\
  well_formed (fst (api.serve [(api.POST_tasks "task", at_clock 1)]
                      create_db_tables)).
Proof.
  split; [exact well_formed_create_db_tables|].
  exact (well_formed_serve [(api.POST_tasks "task", at_clock 1)] create_db_tables
           well_formed_create_db_tables).
Defined.

(** ** Further properties of validation and of the error answers *)

(** A body is accepted, for a create as for an update, exactly when the
    text as sent has 1 to 255 characters, and the accepted model carries
    that text unchanged. *)
Theorem validation_by_length_as_sent (body_text : string) (task : schemas.TaskBase) :
  (schemas.TaskCreate_validate body_text = Returned task <->
   (1 <= String.length body_text <= 255)%nat /\ schemas.text task = body_text) /\
  (schemas.TaskUpdateText_validate body_text = Returned task <->
   (1 <= String.length body_text <= 255)%nat /\ schemas.text task = body_text).
Proof.
  assert (H : schemas.TaskBase_validate body_text = Returned task <->
              (1 <= String.length body_text <= 255)%nat /\
              schemas.text task = body_text).
  { rewrite TaskBase_validate_Returned. destruct task as [s]. cbn.
    split; intros [H1 H2]; (split; [exact H1|]); congruence. }
  split; exact H.
Qed.

(** A body that does not validate is answered 422 by the create and by the
    update-text route, whether or not the id of the update exists, and the
    store is not touched: validation comes before the lookup. *)
Theorem invalid_body_is_422 (store : Database) (now : Env) (task_id : Z)
  (body_text : string) :
  ~ (1 <= String.length body_text <= 255)%nat ->
  exists error_type,
    api.app (api.POST_tasks body_text) now store
      = (store, Raised (RequestValidationError error_type)) /\
    api.app (api.PUT_task_text task_id body_text) now store
      = (store, Raised (RequestValidationError error_type)) /\
    api.status_of (Raised (RequestValidationError error_type)) = 422 /\
    error_type = (if (String.length body_text =? 0)%nat then "string_too_short"
                  else "string_too_long")%string.
Proof.
  intros Hbad.
  pose proof (TaskBase_validate_spec body_text) as Hs.
  destruct (Nat.ltb_spec (String.length body_text) 1) as [H0|H1].
  - exists "string_too_short"%string.
    unfold api.app, schemas.TaskCreate_validate, schemas.TaskUpdateText_validate.
    rewrite Hs. replace (String.length body_text) with 0%nat by lia.
    repeat split.
  - destruct (Nat.ltb_spec 255 (String.length body_text)) as [H2|H2]; [|lia].
    exists "string_too_long"%string.
    unfold api.app, schemas.TaskCreate_validate, schemas.TaskUpdateText_validate.
    rewrite Hs. destruct (Nat.eqb_spec (String.length body_text) 0); [lia|].
    repeat split.
Qed.

Lemma invalid_body_is_422_witness :
  ~ (1 <= String.length (letters 256) <= 255)%nat /\
  exists error_type,
    api.app (api.POST_tasks (letters 256)) (at_clock 9) one_task
      = (one_task, Raised (RequestValidationError error_type)) /\
    api.app (api.PUT_task_text 77 (letters 256)) (at_clock 9) one_task
      = (one_task, Raised (RequestValidationError error_type)) /\
    api.status_of (Raised (RequestValidationError error_type)) = 422 /\
    error_type = (if (String.length (letters 256) =? 0)%nat then "string_too_short"
                  else "string_too_long")%string.
Proof.
  assert (H : ~ (1 <= String.length (letters 256) <= 255)%nat)
    by (rewrite length_letters; lia).
  split; [exact H|].
  exact (invalid_body_is_422 one_task (at_clock 9) 77 (letters 256) H).
Defined.

(** The two reading routes never change the store, whatever their
    parameters are and whether they answer or raise. *)
Theorem reads_keep_store (store : Database) (now : Env)
  (skip limit : option Z) (task_id : Z) :
  fst (api.app (api.GET_tasks skip limit) now store) = store /\
  fst (api.app (api.GET_task task_id) now store) = store /\
  fst (api.get_db (crud.get_tasks skip limit) now store) = store /\
  fst (api.get_db (crud.get_task task_id) now store) = store.
Proof.
  assert (H : forall s l, fst (api.get_db (crud.get_tasks (Some s) (Some l))
                                 now store) = store)
    by (intros s l; now rewrite run_get_tasks).
  repeat split.
  - unfold api.app. rewrite run_read_tasks.
    specialize (H (crud.or_default 0 skip) (crud.or_default 10 limit)).
    destruct (api.get_db _ now store) as [st [l|e]]; exact H.
  - rewrite app_GET_task. now destruct (lookup store task_id).
  - exact (H (crud.or_default 0 skip) (crud.or_default 10 limit)).
Qed.

(** ** Deleting one task *)

Lemma filter_all {A : Type} (p : A -> bool) (l : list A) :
  Forall (fun a => p a = true) l -> filter p l = l.
Proof.
  induction 1 as [|a l Ha _ IH]; cbn; [reflexivity|]. now rewrite Ha, IH.
Qed.

Lemma without_id_split (before after : list Task) (t : Task) :
  NoDup (map id (before ++ t :: after)) ->
  without_id (id t) (before ++ t :: after) = before ++ after.
Proof.
  intros Hnd. unfold without_id. rewrite filter_app. cbn.
  rewrite Z.eqb_refl. cbn.
  rewrite map_app in Hnd. cbn in Hnd.
  pose proof (NoDup_remove_2 _ _ _ Hnd) as Hnotin.
  rewrite !filter_all; [reflexivity| |].
  - apply Forall_forall. intros r Hr.
    destruct (Z.eqb_spec (id r) (id t)) as [E|E]; [|reflexivity].
    exfalso. apply Hnotin. apply in_or_app. right. rewrite <- E.
    now apply in_map.
  - apply Forall_forall. intros r Hr.
    destruct (Z.eqb_spec (id r) (id t)) as [E|E]; [|reflexivity].
    exfalso. apply Hnotin. apply in_or_app. left. rewrite <- E.
    now apply in_map.
Qed.

Lemma without_id_absent (task_id : Z) (rows : list Task) :
  ~ In task_id (map id (without_id task_id rows)).
Proof.
  intros Hin. apply in_map_iff in Hin as [r [E Hr]].
  unfold without_id in Hr. apply filter_In in Hr as [_ Hr].
  rewrite E, Z.eqb_refl in Hr. discriminate.
Qed.

(** Deleting a stored task takes exactly its row out of the table, the
    other rows keeping their order, and answers with the confirmation
    message; after that the id is gone: getting it and deleting it again
    are both answered 404. *)
Theorem delete_then_not_found (store : Database) (now later : Env)
  (task_id : Z) :
  well_formed store ->
  In task_id (ids store) ->
  exists store' t before after,
    api.get_db (crud.delete_task task_id) now store = (store', Returned (Some t)) /\
    api.app (api.DELETE_task task_id) now store
      = (store', Returned (200, api.Message
                                  {| schemas.message :=
                                       ("Task with ID " ++ api.str task_id
                                          ++ " removed successfully.")%string |})) /\
    id t = task_id /\
    tasks store = before ++ t :: after /\
    tasks store' = before ++ after /\
    tasks_id_seq store' = tasks_id_seq store /\
    api.app (api.GET_task task_id) later store'
      = (store', Raised (HTTPException 404 "Task not found")) /\
    api.app (api.DELETE_task task_id) later store'
      = (store', Raised (HTTPException 404 "Task not found")).
Proof.
  intros [Hnd _] Hin.
  destruct (lookup_present store task_id Hin) as [t Ht].
  destruct (lookup_Some _ _ _ Ht) as [Hid Hmem].
  destruct (in_split _ _ Hmem) as [before [after Hsplit]].
  exists (with_tasks store (without_id task_id (tasks store))), t, before, after.
  assert (Hgone : lookup (with_tasks store (without_id task_id (tasks store)))
                    task_id = None).
  { apply lookup_None. unfold ids, with_tasks. cbn [tasks].
    apply without_id_absent. }
  split; [now apply run_delete_task_present|].
  split; [now rewrite app_DELETE_task, Ht|].
  split; [exact Hid|]. split; [exact Hsplit|].
  split.
  { cbn [tasks with_tasks]. rewrite <- Hid. rewrite Hsplit.
    apply without_id_split. unfold ids in Hnd. now rewrite <- Hsplit. }
  split; [reflexivity|].
  split; [now rewrite app_GET_task, Hgone | now rewrite app_DELETE_task, Hgone].
Qed.

Lemma well_formed_two_tasks : well_formed two_tasks.
Proof.
  split.
  - cbn. repeat constructor; cbn; intuition lia.
  - repeat constructor; cbn; lia.
Defined.

Lemma delete_then_not_found_witness :
  well_formed two_tasks /\ In 1 (ids two_tasks) /\
  exists store' t before after,
    api.get_db (crud.delete_task 1) (at_clock 8) two_tasks = (store', Returned (Some t)) /\
    api.app (api.DELETE_task 1) (at_clock 8) two_tasks
      = (store', Returned (200, api.Message
                                  {| schemas.message :=
                                       ("Task with ID " ++ api.str 1
                                          ++ " removed successfully.")%string |})) /\
    id t = 1 /\
    tasks two_tasks = before ++ t :: after /\
    tasks store' = before ++ after /\
    tasks_id_seq store' = tasks_id_seq two_tasks /\
    api.app (api.GET_task 1) (at_clock 9) store'
      = (store', Raised (HTTPException 404 "Task not found")) /\
    api.app (api.DELETE_task 1) (at_clock 9) store'
      = (store', Raised (HTTPException 404 "Task not found")).
Proof.
  assert (Hin : In 1 (ids two_tasks)) by (cbn; tauto).
  split; [exact well_formed_two_tasks|]. split; [exact Hin|].
  exact (delete_then_not_found two_tasks (at_clock 8) (at_clock 9) 1
           well_formed_two_tasks Hin).
Defined.

(** ** Updating twice *)

Lemma status_updated_twice (task_id : Z) (d1 d2 : bool) (rows : list Task) :
  status_updated task_id d2 (status_updated task_id d1 rows) =
  status_updated task_id d2 rows.
Proof.
  unfold status_updated. rewrite map_map. apply map_ext. intros r.
  destruct (Z.eqb_spec (id r) task_id) as [E|E]; cbn.
  - destruct (Z.eqb_spec (id r) task_id); [reflexivity | contradiction].
  - destruct (Z.eqb_spec (id r) task_id); [contradiction | reflexivity].
Qed.

Lemma text_updated_twice (task_id : Z) (s1 s2 : string) (rows : list Task) :
  text_updated task_id s2 (text_updated task_id s1 rows) =
  text_updated task_id s2 rows.
Proof.
  unfold text_updated. rewrite map_map. apply map_ext. intros r.
  destruct (Z.eqb_spec (id r) task_id) as [E|E]; cbn.
  - destruct (Z.eqb_spec (id r) task_id); [reflexivity | contradiction].
  - destruct (Z.eqb_spec (id r) task_id); [contradiction | reflexivity].
Qed.

Lemma lookup_status_updated (store : Database) (task_id : Z) (d : bool) :
  lookup (with_tasks store (status_updated task_id d (tasks store))) task_id =
  option_map (fun r => orm.with_done r d) (lookup store task_id).
Proof.
  unfold lookup, with_tasks, status_updated. cbn [tasks].
  apply (first_filter_id_map (fun r => orm.with_done r d)). reflexivity.
Qed.

Lemma lookup_text_updated (store : Database) (task_id : Z) (s : string) :
  lookup (with_tasks store (text_updated task_id s (tasks store))) task_id =
  option_map (fun r => orm.with_text r s) (lookup store task_id).
Proof.
  unfold lookup, with_tasks, text_updated. cbn [tasks].
  apply (first_filter_id_map (fun r => orm.with_text r s)). reflexivity.
Qed.

(** Of two status updates of one task the last one decides: the second
    request gives the answer and leaves the store it would have given and
    left without the first.  So does a repeated update: it changes nothing
    more. *)
Theorem status_last_update_wins (store : Database) (now later : Env)
  (task_id : Z) (d1 d2 : bool) :
  api.app (api.PUT_task_status task_id d2) later
    (fst (api.app (api.PUT_task_status task_id d1) now store))
  = api.app (api.PUT_task_status task_id d2) later store.
Proof.
  rewrite (app_PUT_task_status store now).
  destruct (lookup store task_id) as [t|] eqn:Ht; [|reflexivity].
  cbn [fst]. rewrite !app_PUT_task_status, lookup_status_updated, Ht.
  cbn [option_map with_tasks tasks tasks_id_seq].
  now rewrite status_updated_twice.
Qed.

(** The same for the text, when the second text validates and holds no
    U+0000. *)
Theorem text_last_update_wins (store : Database) (now later : Env)
  (task_id : Z) (s1 s2 : string) :
  (1 <= String.length s2 <= 255)%nat ->
  orm.contains_nul s2 = false ->
  api.app (api.PUT_task_text task_id s2) later
    (fst (api.app (api.PUT_task_text task_id s1) now store))
  = api.app (api.PUT_task_text task_id s2) later store.
Proof.
  intros Hv2 Hnul2.
  assert (V2 := proj2 (TaskBase_validate_Returned s2 _) (conj Hv2 eq_refl)).
  rewrite (app_PUT_task_text store now).
  destruct (schemas.TaskUpdateText_validate s1); [|reflexivity].
  destruct (lookup store task_id) as [t|] eqn:Ht; [|reflexivity].
  destruct (orm.contains_nul s1); [reflexivity|].
  cbn [fst]. rewrite !app_PUT_task_text.
  unfold schemas.TaskUpdateText_validate. rewrite V2.
  rewrite lookup_text_updated, Ht, Hnul2.
  cbn [option_map with_tasks tasks tasks_id_seq].
  now rewrite text_updated_twice.
Qed.

Lemma text_last_update_wins_witness :
  (1 <= String.length "updated text" <= 255)%nat /\
  orm.contains_nul "updated text" = false /\
  api.app (api.PUT_task_text 2 "updated text") (at_clock 9)
    (fst (api.app (api.PUT_task_text 2 "original text") (at_clock 8) two_tasks))
  = api.app (api.PUT_task_text 2 "updated text") (at_clock 9) two_tasks.
Proof.
  assert (H : (1 <= String.length "updated text" <= 255)%nat) by (cbn; lia).
  assert (Hnul : orm.contains_nul "updated text" = false) by reflexivity.
  split; [exact H|]. split; [exact Hnul|].
  exact (text_last_update_wins two_tasks (at_clock 8) (at_clock 9) 2
           "original text" "updated text" H Hnul).
Defined.

Lemma with_tasks_same (store : Database) : with_tasks store (tasks store) = store.
Proof. now destruct store. Qed.

Lemma with_done_same (r : Task) : orm.with_done r (done r) = r.
Proof. now destruct r. Qed.

(** A status update is read back by the next get, and setting the status
    back to what it was restores the store exactly (the test of the status
    route switches to true and back to false). *)
Theorem status_update_and_back (store : Database) (now later : Env)
  (task_id : Z) (t : Task) (d : bool) :
  well_formed store ->
  lookup store task_id = Some t ->
  exists store',
    api.app (api.PUT_task_status task_id d) now store
      = (store', Returned (200, api.OneTask (orm.with_done t d))) /\
    api.app (api.GET_task task_id) later store'
      = (store', Returned (200, api.OneTask (orm.with_done t d))) /\
    api.app (api.PUT_task_status task_id (done t)) later store'
      = (store, Returned (200, api.OneTask t)).
Proof.
  intros [Hnd _] Ht.
  exists (with_tasks store (status_updated task_id d (tasks store))).
  split; [now rewrite app_PUT_task_status, Ht|].
  split; [now rewrite app_GET_task, lookup_status_updated, Ht|].
  rewrite app_PUT_task_status, lookup_status_updated, Ht.
  cbn [option_map with_tasks tasks tasks_id_seq].
  rewrite status_updated_twice.
  assert (Hrows : status_updated task_id (done t) (tasks store) = tasks store).
  { unfold status_updated. rewrite <- (map_id (tasks store)) at 2.
    apply map_ext_in. intros r Hr.
    destruct (Z.eqb_spec (id r) task_id) as [E|E]; [|reflexivity].
    destruct (lookup_Some _ _ _ Ht) as [Hid Hmem].
    rewrite (same_id_same_row (tasks store) r t Hnd Hr Hmem) by congruence.
    apply with_done_same. }
  rewrite Hrows.
  change (with_tasks (with_tasks store (status_updated task_id d (tasks store)))
            (tasks store)) with (with_tasks store (tasks store)).
  rewrite with_tasks_same. now destruct t.
Qed.

Lemma status_update_and_back_witness :
  well_formed two_tasks /\
  lookup two_tasks 2
    = Some {| id := 2; text := "b"; done := false; created_at := 4 |} /\
  exists store',
    api.app (api.PUT_task_status 2 true) (at_clock 8) two_tasks
      = (store', Returned (200, api.OneTask
                                  {| id := 2; text := "b"; done := true;
                                     created_at := 4 |})) /\
    api.app (api.GET_task 2) (at_clock 9) store'
      = (store', Returned (200, api.OneTask
                                  {| id := 2; text := "b"; done := true;
                                     created_at := 4 |})) /\
    api.app (api.PUT_task_status 2 false) (at_clock 9) store'
      = (two_tasks, Returned (200, api.OneTask
                                     {| id := 2; text := "b"; done := false;
                                        created_at := 4 |})).
Proof.
  assert (Hl : lookup two_tasks 2
               = Some {| id := 2; text := "b"; done := false; created_at := 4 |})
    by reflexivity.
  split; [exact well_formed_two_tasks|]. split; [exact Hl|].
  exact (status_update_and_back two_tasks (at_clock 8) (at_clock 9) 2 _ true
           well_formed_two_tasks Hl).
Defined.

(** ** Ids *)

Lemma without_fresh_id (store : Database) (row : Task) :
  well_formed store -> id row = tasks_id_seq store ->
  without_id (id row) (tasks store ++ [row]) = tasks store.
Proof.
  intros [_ Hlt] Hid. unfold without_id. rewrite filter_app. cbn.
  rewrite Z.eqb_refl. cbn. rewrite app_nil_r. apply filter_all.
  eapply Forall_impl; [|exact Hlt]. cbn. intros r Hr.
  destruct (Z.eqb_spec (id r) (id row)); [lia | reflexivity].
Qed.

(** Creating a task (with a text that validates and holds no U+0000,
    while the sequence has a value left) and deleting it again leaves the
    rows as they were; of the create only the advance of the id sequence
    remains. *)
Theorem create_then_delete (store : Database) (now later : Env)
  (body_text : string) :
  well_formed store ->
  sequence_left store ->
  (1 <= String.length body_text <= 255)%nat ->
  orm.contains_nul body_text = false ->
  exists store' t,
    api.app (api.POST_tasks body_text) now store
      = (store', Returned (201, api.OneTask t)) /\
    fst (api.app (api.DELETE_task (id t)) later store')
      = {| tasks := tasks store; tasks_id_seq := tasks_id_seq store + 1 |} /\
    api.status_of (snd (api.app (api.DELETE_task (id t)) later store')) = 200.
Proof.
  intros Hwf Hseq Hv Hnul.
  assert (V := proj2 (TaskBase_validate_Returned body_text _) (conj Hv eq_refl)).
  exists (with_row store (inserted store body_text now)),
         (inserted store body_text now).
  split; [now apply (app_POST_tasks store now body_text _ Hwf Hseq V)|].
  rewrite app_DELETE_task. cbn [id inserted].
  rewrite (lookup_inserted store body_text now Hwf). cbn [fst snd api.status_of].
  split; [|reflexivity].
  unfold with_tasks, with_row. cbn [tasks tasks_id_seq]. f_equal.
  now apply (without_fresh_id store (inserted store body_text now)).
Qed.

Lemma sequence_left_two_tasks : sequence_left two_tasks.
Proof. unfold sequence_left, int_max. cbn. lia. Defined.

Lemma create_then_delete_witness :
  well_formed two_tasks /\
  sequence_left two_tasks /\
  (1 <= String.length "task to delete" <= 255)%nat /\
  orm.contains_nul "task to delete" = false /\
  exists store' t,
    api.app (api.POST_tasks "task to delete") (at_clock 8) two_tasks
      = (store', Returned (201, api.OneTask t)) /\
    fst (api.app (api.DELETE_task (id t)) (at_clock 9) store')
      = {| tasks := tasks two_tasks; tasks_id_seq := tasks_id_seq two_tasks + 1 |} /\
    api.status_of (snd (api.app (api.DELETE_task (id t)) (at_clock 9) store')) = 200.
Proof.
  assert (H : (1 <= String.length "task to delete" <= 255)%nat) by (cbn; lia).
  assert (Hnul : orm.contains_nul "task to delete" = false) by reflexivity.
  split; [exact well_formed_two_tasks|]. split; [exact sequence_left_two_tasks|].
  split; [exact H|]. split; [exact Hnul|].
  exact (create_then_delete two_tasks (at_clock 8) (at_clock 9) "task to delete"
           well_formed_two_tasks sequence_left_two_tasks H Hnul).
Defined.

Lemma seq_monotone_app (r : api.Request) (now : Env) (store : Database) :
  tasks_id_seq store <= tasks_id_seq (fst (api.app r now store)).
Proof.
  destruct r as [skip limit| |task_id|body_text|task_id d|task_id body_text|task_id].
  - unfold api.app. rewrite run_read_tasks, run_get_tasks. cbn [api.respond].
    destruct (_ || _); [|destruct (_ || _)]; cbn; lia.
  - unfold api.app, api.delete_completed_tasks_endpoint.
    pose proof (run_delete_completed_tasks store now) as Hrun.
    unfold api.get_db, orm.bind in *.
    destruct (crud.delete_completed_tasks (orm.SessionLocal store now))
      as [db' o].
    injection Hrun as H1 H2. subst o. cbn. rewrite H1. cbn. lia.
  - rewrite app_GET_task. destruct (lookup store task_id); cbn; lia.
  - rewrite app_POST_tasks_cases.
    destruct (schemas.TaskCreate_validate body_text) as [task|e]; [|cbn; lia].
    destruct (orm.contains_nul body_text); [cbn; lia|].
    destruct (int_max <? tasks_id_seq store); cbn; lia.
  - rewrite app_PUT_task_status. destruct (lookup store task_id); cbn; lia.
  - rewrite app_PUT_task_text.
    destruct (schemas.TaskUpdateText_validate body_text);
      [destruct (lookup store task_id);
       [destruct (orm.contains_nul body_text)|]|]; cbn; lia.
  - rewrite app_DELETE_task. destruct (lookup store task_id); cbn; lia.
Qed.

Lemma seq_monotone_serve (rs : list (api.Request * Env)) (store : Database) :
  tasks_id_seq store <= tasks_id_seq (fst (api.serve rs store)).
Proof.
  revert store. induction rs as [|[r now] rs IH]; intros store; cbn; [lia|].
  pose proof (seq_monotone_app r now store) as H1.
  destruct (api.app r now store) as [store' resp]. cbn [fst] in H1.
  specialize (IH store').
  destruct (api.serve rs store') as [store'' resps]. cbn [fst] in *. lia.
Qed.

(** An id is never given twice: whatever requests were served since, a
    task created now (with a text that validates and holds no U+0000,
    while the sequence has a value left) gets an id that is at least the
    earlier value of the sequence, so it is the id of no task that was
    stored then, and of no task that is stored now. *)
Theorem ids_never_reused (rs : list (api.Request * Env)) (store : Database)
  (now : Env) (body_text : string) :
  well_formed store ->
  sequence_left (fst (api.serve rs store)) ->
  (1 <= String.length body_text <= 255)%nat ->
  orm.contains_nul body_text = false ->
  exists t store'',
    api.app (api.POST_tasks body_text) now (fst (api.serve rs store))
      = (store'', Returned (201, api.OneTask t)) /\
    tasks_id_seq store <= id t /\
    ~ In (id t) (ids store) /\
    ~ In (id t) (ids (fst (api.serve rs store))) /\
    In (id t) (ids store'').
Proof.
  intros Hwf Hseq Hv Hnul.
  assert (V := proj2 (TaskBase_validate_Returned body_text _) (conj Hv eq_refl)).
  pose proof (well_formed_serve rs store Hwf) as Hwf'.
  pose proof (seq_monotone_serve rs store) as Hmono.
  set (store' := fst (api.serve rs store)) in *.
  exists (inserted store' body_text now),
         (with_row store' (inserted store' body_text now)).
  split; [now apply (app_POST_tasks store' now body_text _ Hwf' Hseq V)|].
  cbn [id inserted].
  split; [exact Hmono|].
  split.
  - intros Hin. destruct Hwf as [_ Hlt]. unfold ids in Hin.
    apply in_map_iff in Hin as [r [E Hr]]. rewrite Forall_forall in Hlt.
    specialize (Hlt r Hr). lia.
  - split; [now apply fresh_id|].
    unfold ids, with_row. cbn [tasks]. rewrite map_app. apply in_or_app.
    right. now left.
Qed.

Lemma ids_never_reused_witness :
  well_formed two_tasks /\
  sequence_left (fst (api.serve [(api.DELETE_task 2, at_clock 8)] two_tasks)) /\
  (1 <= String.length "again" <= 255)%nat /\
  orm.contains_nul "again" = false /\
  exists t store'',
    api.app (api.POST_tasks "again") (at_clock 9)
      (fst (api.serve [(api.DELETE_task 2, at_clock 8)] two_tasks))
      = (store'', Returned (201, api.OneTask t)) /\
    tasks_id_seq two_tasks <= id t /\
    ~ In (id t) (ids two_tasks) /\
    ~ In (id t) (ids (fst (api.serve [(api.DELETE_task 2, at_clock 8)] two_tasks))) /\
    In (id t) (ids store'').
Proof.
  assert (H : (1 <= String.length "again" <= 255)%nat) by (cbn; lia).
  assert (Hnul : orm.contains_nul "again" = false) by reflexivity.
  assert (Hseq : sequence_left
                   (fst (api.serve [(api.DELETE_task 2, at_clock 8)] two_tasks)))
    by (unfold sequence_left, int_max; cbn; lia).
  split; [exact well_formed_two_tasks|]. split; [exact Hseq|].
  split; [exact H|]. split; [exact Hnul|].
  exact (ids_never_reused [(api.DELETE_task 2, at_clock 8)] two_tasks (at_clock 9)
           "again" well_formed_two_tasks Hseq H Hnul).
Defined.

(** ** Pages *)

Lemma firstn_add {A : Type} (a b : nat) (l : list A) :
  firstn (a + b) l = firstn a l ++ firstn b (skipn a l).
Proof.
  revert l. induction a as [|a IH]; intros l; cbn; [reflexivity|].
  destruct l as [|x l]; cbn; [now rewrite firstn_nil | now rewrite IH].
Qed.

Lemma skipn_add {A : Type} (a b : nat) (l : list A) :
  skipn (a + b) l = skipn b (skipn a l).
Proof.
  revert l. induction a as [|a IH]; intros l; cbn; [reflexivity|].
  destruct l as [|x l]; cbn; [now rewrite skipn_nil | apply IH].
Qed.

(** Where no two rows tie, the tie order has no say. *)
Lemma insert_desc_no_tie (rank1 rank2 : Task -> Z) (t : Task) (l : list Task) :
  ~ In (created_at t) (map created_at l) ->
  orm.insert_desc rank1 t l = orm.insert_desc rank2 t l.
Proof.
  induction l as [|u l IH]; cbn; [reflexivity|]. intros Hnotin.
  unfold orm.comes_before.
  destruct (Z.eqb_spec (created_at u) (created_at t)) as [E|E]; [tauto|].
  cbn. rewrite IH by tauto. reflexivity.
Qed.

Lemma sort_desc_no_tie (rank1 rank2 : Task -> Z) (rows : list Task) :
  NoDup (map created_at rows) ->
  orm.sort_desc rank1 rows = orm.sort_desc rank2 rows.
Proof.
  induction rows as [|r rows IH]; [reflexivity|]. intros Hnd.
  inversion Hnd as [|? ? Hnotin Hnd']; subst.
  change (orm.insert_desc rank1 r (orm.sort_desc rank1 rows)
          = orm.insert_desc rank2 r (orm.sort_desc rank2 rows)).
  rewrite (IH Hnd'). apply insert_desc_no_tie.
  intros Hin. apply Hnotin.
  apply (Permutation_in _ (Permutation_map created_at
                             (sort_desc_perm rank2 rows))).
  exact Hin.
Qed.

(** Pages that follow one another fit together when no two stored tasks
    have the same created_at: on an unchanged store the page of [limit1]
    tasks at [skip] followed by the page of [limit2] tasks at
    [skip + limit1] is the page of [limit1 + limit2] tasks at [skip],
    whatever tie order the database chooses for each of the three queries;
    nothing is listed twice and nothing is left out between them. *)
Theorem consecutive_pages (store : Database) (e1 e2 e3 : Env)
  (skip limit1 limit2 : Z) :
  distinct_times store ->
  bigint_count skip -> bigint_count limit1 -> bigint_count limit2 ->
  bigint_count (skip + limit1) -> bigint_count (limit1 + limit2) ->
  exists p1 p2,
    api.get_db (crud.get_tasks (Some skip) (Some limit1)) e1 store
      = (store, Returned p1) /\
    api.get_db (crud.get_tasks (Some (skip + limit1)) (Some limit2)) e2 store
      = (store, Returned p2) /\
    api.get_db (crud.get_tasks (Some skip) (Some (limit1 + limit2))) e3 store
      = (store, Returned (p1 ++ p2)).
Proof.
  intros Hd Hs H1 H2 Hs1 H12.
  exists (page skip limit1 (orm.sort_desc (tie_rank e1) (tasks store))),
         (page (skip + limit1) limit2 (orm.sort_desc (tie_rank e2) (tasks store))).
  split; [now apply run_get_tasks_page|].
  split; [now apply run_get_tasks_page|].
  rewrite run_get_tasks_page by assumption. f_equal. f_equal.
  rewrite (sort_desc_no_tie (tie_rank e1) (tie_rank e3) (tasks store) Hd).
  rewrite (sort_desc_no_tie (tie_rank e2) (tie_rank e3) (tasks store) Hd).
  unfold page. unfold bigint_count in *.
  rewrite !Z2Nat.inj_add by lia. rewrite firstn_add, skipn_add. reflexivity.
Qed.

Lemma bigint_count_small (n : Z) : 0 <= n <= 1000 -> bigint_count n.
Proof. unfold bigint_count, bigint_max. lia. Defined.

Lemma distinct_times_three_tasks : distinct_times three_tasks.
Proof. unfold distinct_times. cbn. repeat constructor; cbn; intuition lia. Defined.

Lemma consecutive_pages_witness :
  distinct_times three_tasks /\
  exists p1 p2,
    api.get_db (crud.get_tasks (Some 0) (Some 1)) (at_clock 9) three_tasks
      = (three_tasks, Returned p1) /\
    api.get_db (crud.get_tasks (Some (0 + 1)) (Some 2)) (at_clock_descending 9)
      three_tasks
      = (three_tasks, Returned p2) /\
    api.get_db (crud.get_tasks (Some 0) (Some (1 + 2))) (at_clock 10) three_tasks
      = (three_tasks, Returned (p1 ++ p2)).
Proof.
  split; [exact distinct_times_three_tasks|].
  refine (consecutive_pages three_tasks (at_clock 9) (at_clock_descending 9)
            (at_clock 10) 0 1 2 distinct_times_three_tasks
            (bigint_count_small 0 _) (bigint_count_small 1 _)
            (bigint_count_small 2 _) (bigint_count_small (0 + 1) _)
            (bigint_count_small (1 + 2) _)); lia.
Defined.

(** A page that asks for nothing, or that starts at or after the end of
    the table, is the empty list, not an error (skip and limit being
    bigint counts). *)
Theorem empty_pages (store : Database) (now : Env) (skip limit : Z) :
  bigint_count skip -> bigint_count limit ->
  limit = 0 \/ Z.of_nat (List.length (tasks store)) <= skip ->
  api.app (api.GET_tasks (Some skip) (Some limit)) now store
    = (store, Returned (200, api.TaskList [])).
Proof.
  intros Hs Hl Hcase. unfold api.app. rewrite run_read_tasks.
  cbn [crud.or_default]. rewrite run_get_tasks_page by assumption.
  cbn [api.respond]. f_equal. f_equal. f_equal. f_equal.
  unfold page. destruct Hcase as [->|Hend]; [reflexivity|].
  rewrite skipn_all2; [apply firstn_nil|].
  rewrite (Permutation_length (sort_desc_perm (tie_rank now) (tasks store))). lia.
Qed.

Lemma empty_pages_witness :
  bigint_count 3 /\ bigint_count 10 /\
  (10 = 0 \/ Z.of_nat (List.length (tasks three_tasks)) <= 3) /\
  api.app (api.GET_tasks (Some 3) (Some 10)) (at_clock 9) three_tasks
    = (three_tasks, Returned (200, api.TaskList [])).
Proof.
  assert (H0 : bigint_count 3) by (apply bigint_count_small; lia).
  assert (H1 : bigint_count 10) by (apply bigint_count_small; lia).
  assert (H2 : 10 = 0 \/ Z.of_nat (List.length (tasks three_tasks)) <= 3)
    by (right; cbn; lia).
  split; [exact H0|]. split; [exact H1|]. split; [exact H2|].
  exact (empty_pages three_tasks (at_clock 9) 3 10 H0 H1 H2).
Defined.

(** A listing from the start with a limit that is a bigint count of at
    least the number of stored tasks returns all of them, each once,
    newest first. *)
Theorem whole_listing (store : Database) (now : Env) (limit : Z) :
  bigint_count limit ->
  Z.of_nat (List.length (tasks store)) <= limit ->
  exists l,
    api.app (api.GET_tasks (Some 0) (Some limit)) now store
      = (store, Returned (200, api.TaskList l)) /\
    Permutation l (tasks store) /\
    newest_first l.
Proof.
  intros Hb Hl. exists (orm.sort_desc (tie_rank now) (tasks store)).
  split; [|split; [apply sort_desc_perm | apply sort_desc_sorted]].
  unfold api.app. rewrite run_read_tasks. cbn [crud.or_default].
  rewrite run_get_tasks_page; [|apply bigint_count_small; lia | exact Hb].
  cbn [api.respond].
  f_equal. f_equal. f_equal. f_equal. unfold page. cbn [Z.to_nat skipn].
  apply firstn_all2.
  rewrite (Permutation_length (sort_desc_perm (tie_rank now) (tasks store))). lia.
Qed.

Lemma whole_listing_witness :
  bigint_count 3 /\
  Z.of_nat (List.length (tasks three_tasks)) <= 3 /\
  exists l,
    api.app (api.GET_tasks (Some 0) (Some 3)) (at_clock 9) three_tasks
      = (three_tasks, Returned (200, api.TaskList l)) /\
    Permutation l (tasks three_tasks) /\
    newest_first l.
Proof.
  assert (Hb : bigint_count 3) by (apply bigint_count_small; lia).
  assert (H : Z.of_nat (List.length (tasks three_tasks)) <= 3) by (cbn; lia).
  split; [exact Hb|]. split; [exact H|].
  exact (whole_listing three_tasks (at_clock 9) 3 Hb H).
Defined.

Lemma NoDup_firstn {A : Type} (n : nat) (l : list A) :
  NoDup l -> NoDup (firstn n l).
Proof.
  intros H. rewrite <- (firstn_skipn n l) in H. now apply NoDup_app_remove_r in H.
Qed.

Lemma NoDup_skipn {A : Type} (n : nat) (l : list A) :
  NoDup l -> NoDup (skipn n l).
Proof.
  intros H. rewrite <- (firstn_skipn n l) in H. now apply NoDup_app_remove_l in H.
Qed.

Lemma incl_page (skip limit : Z) (l : list Task) : incl (page skip limit l) l.
Proof.
  unfold page. intros t Ht.
  rewrite <- (firstn_skipn (Z.to_nat skip) l). apply in_or_app. right.
  rewrite <- (firstn_skipn (Z.to_nat limit) (skipn (Z.to_nat skip) l)).
  apply in_or_app. now left.
Qed.

(** A listing shows stored tasks only, and none of them twice (skip and
    limit being bigint counts). *)
Theorem listing_of_stored_tasks (store : Database) (now : Env)
  (skip limit : Z) :
  well_formed store ->
  bigint_count skip -> bigint_count limit ->
  exists l,
    api.get_db (crud.get_tasks (Some skip) (Some limit)) now store
      = (store, Returned l) /\
    incl l (tasks store) /\
    NoDup (map id l) /\
    NoDup l.
Proof.
  intros [Hnd _] Hs Hl.
  exists (page skip limit (orm.sort_desc (tie_rank now) (tasks store))).
  split; [now apply run_get_tasks_page|].
  assert (Hids : NoDup (map id (page skip limit
                                  (orm.sort_desc (tie_rank now) (tasks store))))).
  { unfold page. rewrite <- firstn_map, <- skipn_map.
    apply NoDup_firstn, NoDup_skipn.
    apply (Permutation_NoDup
             (Permutation_map id
                (Permutation_sym (sort_desc_perm (tie_rank now) (tasks store))))).
    exact Hnd. }
  split.
  - intros t Ht. apply incl_page in Ht.
    now apply (Permutation_in t (sort_desc_perm (tie_rank now) (tasks store))).
  - split; [exact Hids | now apply NoDup_map_inv in Hids].
Qed.

Lemma listing_of_stored_tasks_witness :
  well_formed two_tasks /\ bigint_count 1 /\ bigint_count 5 /\
  exists l,
    api.get_db (crud.get_tasks (Some 1) (Some 5)) (at_clock 9) two_tasks
      = (two_tasks, Returned l) /\
    incl l (tasks two_tasks) /\
    NoDup (map id l) /\
    NoDup l.
Proof.
  assert (H0 : bigint_count 1) by (apply bigint_count_small; lia).
  assert (H1 : bigint_count 5) by (apply bigint_count_small; lia).
  split; [exact well_formed_two_tasks|]. split; [exact H0|]. split; [exact H1|].
  exact (listing_of_stored_tasks two_tasks (at_clock 9) 1 5
           well_formed_two_tasks H0 H1).
Defined.

Lemma sort_desc_newest_last (rank : Task -> Z) (rows : list Task) (row : Task) :
  Forall (fun t => created_at t < created_at row) rows ->
  orm.sort_desc rank (rows ++ [row]) = row :: orm.sort_desc rank rows.
Proof.
  unfold orm.sort_desc.
  induction 1 as [|r rows Hr _ IH]; cbn; [reflexivity|].
  rewrite IH. cbn. unfold orm.comes_before.
  destruct (Z.ltb_spec (created_at row) (created_at r)); [lia|].
  destruct (Z.eqb_spec (created_at row) (created_at r)); [lia|].
  reflexivity.
Qed.

(** A task created under a clock reading later than every stored
    created_at heads the next listing, and the tasks listed after it are
    those a listing of the store before the create would show under the
    same tie order.  (The text validates and holds no U+0000, the sequence
    has a value left; limit and limit + 1 are bigint counts.) *)
Theorem created_task_is_listed_first (store : Database) (now later : Env)
  (body_text : string) (limit : Z) :
  well_formed store ->
  sequence_left store ->
  (1 <= String.length body_text <= 255)%nat ->
  orm.contains_nul body_text = false ->
  all_older store now ->
  bigint_count limit -> bigint_count (limit + 1) ->
  exists store' t before,
    api.app (api.POST_tasks body_text) now store
      = (store', Returned (201, api.OneTask t)) /\
    api.get_db (crud.get_tasks (Some 0) (Some limit)) later store
      = (store, Returned before) /\
    api.get_db (crud.get_tasks (Some 0) (Some (limit + 1))) later store'
      = (store', Returned (t :: before)).
Proof.
  intros Hwf Hseq Hv Hnul Hold Hl Hl1.
  assert (V := proj2 (TaskBase_validate_Returned body_text _) (conj Hv eq_refl)).
  assert (H0 : bigint_count 0) by (apply bigint_count_small; lia).
  exists (with_row store (inserted store body_text now)),
         (inserted store body_text now),
         (page 0 limit (orm.sort_desc (tie_rank later) (tasks store))).
  split; [now apply (app_POST_tasks store now body_text _ Hwf Hseq V)|].
  split; [now apply run_get_tasks_page|].
  rewrite run_get_tasks_page by assumption. f_equal. f_equal.
  unfold with_row. cbn [tasks].
  rewrite sort_desc_newest_last by exact Hold.
  unfold page. unfold bigint_count in Hl. rewrite Z2Nat.inj_add by lia.
  replace (Z.to_nat limit + Z.to_nat 1)%nat with (S (Z.to_nat limit)) by lia.
  reflexivity.
Qed.

Lemma created_task_is_listed_first_witness :
  well_formed two_tasks /\
  sequence_left two_tasks /\
  (1 <= String.length "newest" <= 255)%nat /\
  orm.contains_nul "newest" = false /\
  all_older two_tasks (at_clock 8) /\
  bigint_count 10 /\ bigint_count (10 + 1) /\
  exists store' t before,
    api.app (api.POST_tasks "newest") (at_clock 8) two_tasks
      = (store', Returned (201, api.OneTask t)) /\
    api.get_db (crud.get_tasks (Some 0) (Some 10)) (at_clock 9) two_tasks
      = (two_tasks, Returned before) /\
    api.get_db (crud.get_tasks (Some 0) (Some (10 + 1))) (at_clock 9) store'
      = (store', Returned (t :: before)).
Proof.
  assert (Hv : (1 <= String.length "newest" <= 255)%nat) by (cbn; lia).
  assert (Hnul : orm.contains_nul "newest" = false) by reflexivity.
  assert (Hold : all_older two_tasks (at_clock 8)) by (repeat constructor; cbn; lia).
  assert (Hl : bigint_count 10) by (apply bigint_count_small; lia).
  assert (Hl1 : bigint_count (10 + 1)) by (apply bigint_count_small; lia).
  split; [exact well_formed_two_tasks|]. split; [exact sequence_left_two_tasks|].
  split; [exact Hv|]. split; [exact Hnul|].
  split; [exact Hold|]. split; [exact Hl|]. split; [exact Hl1|].
  exact (created_task_is_listed_first two_tasks (at_clock 8) (at_clock 9)
           "newest" 10 well_formed_two_tasks sequence_left_two_tasks
           Hv Hnul Hold Hl Hl1).
Defined.

(** ** The response models *)

Lemma TaskResponse_validate_valid (row : Task) :
  (1 <= String.length (text row) <= 255)%nat ->
  response.TaskResponse_validate row
  = Some {| response.id := id row; response.text := text row;
            response.done := done row; response.created_at := created_at row |}.
Proof.
  intros Hv. unfold response.TaskResponse_validate, schemas.validate_str.
  rewrite TaskBase_text_constraints. cbn -[Nat.ltb].
  destruct (Nat.ltb_spec (String.length (text row)) 1); [lia|].
  destruct (Nat.ltb_spec 255 (String.length (text row))); [lia|]. reflexivity.
Qed.

Lemma TaskResponse_validate_invalid (row : Task) :
  ~ (1 <= String.length (text row) <= 255)%nat ->
  response.TaskResponse_validate row = None.
Proof.
  intros Hv. unfold response.TaskResponse_validate, schemas.validate_str.
  rewrite TaskBase_text_constraints. cbn -[Nat.ltb].
  destruct (Nat.ltb_spec (String.length (text row)) 1); [reflexivity|].
  destruct (Nat.ltb_spec 255 (String.length (text row))); [reflexivity | lia].
Qed.

Lemma TaskResponse_list_validate_valid (rows : list Task) :
  Forall (fun t => (1 <= String.length (text t) <= 255)%nat) rows ->
  response.TaskResponse_list_validate rows <> None.
Proof.
  induction 1 as [|r rows Hr _ IH]; cbn; [discriminate|].
  rewrite (TaskResponse_validate_valid r Hr).
  destruct (response.TaskResponse_list_validate rows); [discriminate | exact IH].
Qed.

Lemma texts_valid_In (store : Database) (t : Task) :
  texts_valid store -> In t (tasks store) ->
  (1 <= String.length (text t) <= 255)%nat.
Proof. unfold texts_valid. rewrite Forall_forall. intros H Ht. now apply H. Qed.

Lemma texts_valid_app (r : api.Request) (now : Env) (store : Database) :
  texts_valid store -> texts_valid (fst (api.app r now store)).
Proof.
  intros Hv.
  destruct r as [skip limit| |task_id|body_text|task_id d|task_id body_text|task_id].
  - unfold api.app. rewrite run_read_tasks, run_get_tasks. cbn [api.respond].
    destruct (_ || _); [|destruct (_ || _)]; exact Hv.
  - unfold api.app, api.delete_completed_tasks_endpoint.
    pose proof (run_delete_completed_tasks store now) as Hrun.
    unfold api.get_db, orm.bind in *.
    destruct (crud.delete_completed_tasks (orm.SessionLocal store now))
      as [db' o].
    injection Hrun as H1 H2. subst o. cbn. rewrite H1.
    rewrite delete_all_filter. unfold texts_valid, with_tasks in *. cbn [tasks].
    rewrite Forall_forall in *. intros u Hu. apply filter_In in Hu as [Hu _].
    now apply Hv.
  - rewrite app_GET_task. destruct (lookup store task_id); exact Hv.
  - rewrite app_POST_tasks_cases.
    destruct (schemas.TaskCreate_validate body_text) as [task|e] eqn:V; [|exact Hv].
    apply TaskBase_validate_Returned in V as [Hlen _].
    destruct (orm.contains_nul body_text); [exact Hv|].
    destruct (int_max <? tasks_id_seq store); [exact Hv|].
    cbn [fst]. unfold texts_valid, with_row in *. cbn [tasks].
    apply Forall_app. split; [exact Hv|]. constructor; [exact Hlen | constructor].
  - rewrite app_PUT_task_status. destruct (lookup store task_id); [|exact Hv].
    cbn [fst]. unfold texts_valid, with_tasks, status_updated in *. cbn [tasks].
    rewrite Forall_forall in *. intros u Hu. apply in_map_iff in Hu as [r [<- Hr]].
    destruct (id r =? task_id); cbn; now apply Hv.
  - rewrite app_PUT_task_text.
    destruct (schemas.TaskUpdateText_validate body_text) as [task|e] eqn:V;
      [|exact Hv].
    apply TaskBase_validate_Returned in V as [Hlen _].
    destruct (lookup store task_id); [|exact Hv].
    destruct (orm.contains_nul body_text); [exact Hv|].
    cbn [fst]. unfold texts_valid, with_tasks, text_updated in *. cbn [tasks].
    rewrite Forall_forall in *. intros u Hu. apply in_map_iff in Hu as [r [<- Hr]].
    destruct (id r =? task_id); cbn; [exact Hlen | now apply Hv].
  - rewrite app_DELETE_task. destruct (lookup store task_id); [|exact Hv].
    cbn [fst]. unfold texts_valid, with_tasks, without_id in *. cbn [tasks].
    rewrite Forall_forall in *. intros u Hu. apply filter_In in Hu as [Hu _].
    now apply Hv.
Qed.

Lemma serializes_app (r : api.Request) (now : Env) (store : Database) :
  well_formed store -> texts_valid store ->
  serializes (snd (api.app r now store)).
Proof.
  intros Hwf Hv.
  destruct r as [skip limit| |task_id|body_text|task_id d|task_id body_text|task_id].
  - unfold api.app. rewrite run_read_tasks, run_get_tasks. cbn [api.respond].
    destruct (_ || _); [exact I|]. destruct (_ || _); [exact I|].
    cbn [snd serializes response.serialize_response].
    assert (Hall : Forall (fun t => (1 <= String.length (text t) <= 255)%nat)
                     (page (crud.or_default 0 skip) (crud.or_default 10 limit)
                        (orm.sort_desc (tie_rank now) (tasks store)))).
    { apply Forall_forall. intros t Ht. apply incl_page in Ht.
      apply (texts_valid_In store t Hv).
      now apply (Permutation_in t (sort_desc_perm (tie_rank now) (tasks store))). }
    apply TaskResponse_list_validate_valid in Hall. unfold page in Hall.
    destruct (response.TaskResponse_list_validate _); [discriminate | contradiction].
  - unfold api.app, api.delete_completed_tasks_endpoint.
    pose proof (run_delete_completed_tasks store now) as Hrun.
    unfold api.get_db, orm.bind in *.
    destruct (crud.delete_completed_tasks (orm.SessionLocal store now))
      as [db' o].
    injection Hrun as H1 H2. subst o. cbn. discriminate.
  - rewrite app_GET_task. destruct (lookup store task_id) as [t|] eqn:Ht;
      [|exact I].
    cbn. destruct (lookup_Some _ _ _ Ht) as [_ Hmem].
    rewrite (TaskResponse_validate_valid t (texts_valid_In store t Hv Hmem)).
    discriminate.
  - rewrite app_POST_tasks_cases.
    destruct (schemas.TaskCreate_validate body_text) as [task|e] eqn:V; [|exact I].
    apply TaskBase_validate_Returned in V as [Hlen _].
    destruct (orm.contains_nul body_text); [exact I|].
    destruct (int_max <? tasks_id_seq store); [exact I|].
    rewrite (lookup_inserted store body_text now Hwf). cbn.
    rewrite (TaskResponse_validate_valid (inserted store body_text now) Hlen).
    discriminate.
  - rewrite app_PUT_task_status. destruct (lookup store task_id) as [t|] eqn:Ht;
      [|exact I].
    cbn. destruct (lookup_Some _ _ _ Ht) as [_ Hmem].
    rewrite (TaskResponse_validate_valid (orm.with_done t d)
               (texts_valid_In store t Hv Hmem)).
    discriminate.
  - rewrite app_PUT_task_text.
    destruct (schemas.TaskUpdateText_validate body_text) as [task|e] eqn:V;
      [|exact I].
    apply TaskBase_validate_Returned in V as [Hlen _].
    destruct (lookup store task_id) as [t|]; [|exact I].
    destruct (orm.contains_nul body_text); [exact I|].
    cbn. rewrite (TaskResponse_validate_valid (orm.with_text t body_text) Hlen).
    discriminate.
  - rewrite app_DELETE_task. destruct (lookup store task_id); [|exact I].
    cbn. discriminate.
Qed.

(** Every answer fits its response model.  When the stored texts have 1 to
    255 characters -- as in the fresh table -- they still do after any
    sequence of requests, and every task a route returned along the way
    passes the validation of TaskResponse: no request ends in a response
    validation error. *)
Theorem responses_fit_their_model (rs : list (api.Request * Env))
  (store : Database) :
  well_formed store -> texts_valid store ->
  Forall serializes (snd (api.serve rs store)) /\
  texts_valid (fst (api.serve rs store)).
Proof.
  revert store. induction rs as [|[r now] rs IH]; intros store Hwf Hv; cbn.
  - split; [constructor | exact Hv].
  - pose proof (serializes_app r now store Hwf Hv) as H1.
    pose proof (texts_valid_app r now store Hv) as H2.
    pose proof (well_formed_app r now store Hwf) as H3.
    destruct (api.app r now store) as [store' resp]. cbn [fst snd] in *.
    destruct (IH store' H3 H2) as [H4 H5].
    destruct (api.serve rs store') as [store'' resps]. cbn [fst snd] in *.
    split; [now constructor | exact H5].
Qed.

Lemma responses_fit_their_model_witness :
  well_formed create_db_tables /\ texts_valid create_db_tables /\
  Forall serializes
    (snd (api.serve [(api.POST_tasks " ", at_clock 1); (api.GET_tasks None None, at_clock 2)]
            create_db_tables)) /\
  texts_valid
    (fst (api.serve [(api.POST_tasks " ", at_clock 1); (api.GET_tasks None None, at_clock 2)]
            create_db_tables)).
Proof.
  assert (Hv : texts_valid create_db_tables) by constructor.
  split; [exact well_formed_create_db_tables|]. split; [exact Hv|].
  exact (responses_fit_their_model
           [(api.POST_tasks " ", at_clock 1); (api.GET_tasks None None, at_clock 2)]
           create_db_tables well_formed_create_db_tables Hv).
Defined.

(** A row whose text the field refuses cannot be answered: reading it
    makes the response validation fail.  (No request stores such a row;
    it would have to come from outside the application.) *)
Theorem foreign_row_fails_response_model (row : Task) :
  ~ (1 <= String.length (text row) <= 255)%nat ->
  response.serialize_response (api.OneTask row) = None /\
  forall rows, response.serialize_response (api.TaskList (row :: rows)) = None.
Proof.
  intros Hbad. cbn. rewrite (TaskResponse_validate_invalid row Hbad).
  split; reflexivity.
Qed.

Lemma foreign_row_fails_response_model_witness :
  ~ (1 <= String.length (text {| id := 1%Z; text := EmptyString; done := false;
                                 created_at := 0%Z |}) <= 255)%nat /\
  response.serialize_response
    (api.OneTask {| id := 1; text := EmptyString; done := false; created_at := 0 |})
  = None.
Proof.
  assert (H : ~ (1 <= String.length
                        (text {| id := 1%Z; text := EmptyString; done := false;
                                 created_at := 0%Z |}) <= 255)%nat)
    by (cbn; lia).
  split; [exact H|].
  exact (proj1 (foreign_row_fails_response_model _ H)).
Defined.

(** ** Bulk delete against single deletes *)

Lemma without_absent_id (task_id : Z) (rows : list Task) :
  ~ In task_id (map id rows) -> without_id task_id rows = rows.
Proof.
  intros Habsent. apply filter_all. apply Forall_forall. intros r Hr.
  destruct (Z.eqb_spec (id r) task_id) as [E|E]; [|reflexivity].
  exfalso. apply Habsent. rewrite <- E. now apply in_map.
Qed.

Lemma store_after_DELETE_task (store : Database) (now : Env) (task_id : Z) :
  fst (api.app (api.DELETE_task task_id) now store)
  = with_tasks store (without_id task_id (tasks store)).
Proof.
  rewrite app_DELETE_task.
  destruct (lookup store task_id) as [t|] eqn:Ht; [reflexivity|].
  apply lookup_None in Ht. cbn [fst].
  rewrite (without_absent_id task_id (tasks store) Ht).
  symmetry. apply with_tasks_same.
Qed.

Lemma delete_each_spec (l : list Task) (now : Env) (store : Database) :
  delete_each (map id l) now store
  = with_tasks store (delete_all l (tasks store)).
Proof.
  revert store. induction l as [|t l IH]; intros store.
  - cbn. symmetry. apply with_tasks_same.
  - cbn [map]. unfold delete_each. cbn [fold_left].
    fold (delete_each (map id l) now
            (fst (api.app (api.DELETE_task (id t)) now store))).
    rewrite store_after_DELETE_task, IH. reflexivity.
Qed.

(** Deleting the completed tasks in one request leaves the store that
    single DELETE requests for each completed task, one after the other,
    leave; the count it returns is the number of those requests. *)
Theorem bulk_delete_as_single_deletes (store : Database) (now later : Env) :
  api.get_db crud.delete_completed_tasks now store
  = (delete_each (map id (orm.filter_done (tasks store))) later store,
     Returned (Z.of_nat (List.length (map id (orm.filter_done (tasks store)))))).
Proof.
  rewrite run_delete_completed_tasks, delete_each_spec, length_map.
  reflexivity.
Qed.

(** ** Keys and startup *)

(** From a table whose ids are distinct and below the sequence, any
    sequence of requests leads to such a table again, and in it the id of
    every stored task selects exactly that task. *)
Theorem primary_key_kept (rs : list (api.Request * Env)) (store : Database) :
  well_formed store ->
  NoDup (ids (fst (api.serve rs store))) /\
  Forall (fun t => id t < tasks_id_seq (fst (api.serve rs store)))
    (tasks (fst (api.serve rs store))) /\
  Forall (fun t => lookup (fst (api.serve rs store)) (id t) = Some t)
    (tasks (fst (api.serve rs store))).
Proof.
  intros Hwf. destruct (well_formed_serve rs store Hwf) as [Hnd Hlt].
  split; [exact Hnd|]. split; [exact Hlt|].
  apply Forall_forall. intros t Ht. now apply first_filter_id_In.
Qed.

Lemma primary_key_kept_witness :
  well_formed create_db_tables /\
  NoDup (ids (fst (api.serve [(api.POST_tasks "a", at_clock 1);
                              (api.POST_tasks "b", at_clock 1);
                              (api.DELETE_task 1, at_clock 2);
                              (api.POST_tasks "c", at_clock 3)]
                     create_db_tables))).
Proof.
  split; [exact well_formed_create_db_tables|].
  exact (proj1 (primary_key_kept
                  [(api.POST_tasks "a", at_clock 1);
                   (api.POST_tasks "b", at_clock 1);
                   (api.DELETE_task 1, at_clock 2);
                   (api.POST_tasks "c", at_clock 3)]
                  create_db_tables well_formed_create_db_tables)).
Defined.

(** Starting the application never changes a table that exists, so a
    restart keeps the stored tasks; running the hook twice is running it
    once; with ENV set to test the hook leaves the database alone, and
    otherwise the table exists afterwards. *)
Theorem startup_keeps_existing_table (ENV : option string) (server : Server)
  (store : Database) :
  startup_event ENV (Some store) = Some store /\
  startup_event ENV (startup_event ENV server) = startup_event ENV server /\
  startup_event (Some "test"%string) server = server /\
  (ENV = Some "test"%string \/ startup_event ENV server <> None).
Proof.
  unfold startup_event, create_all.
  split; [destruct ENV as [v|]; [destruct (String.eqb v "test")|]; reflexivity|].
  split; [destruct ENV as [v|]; [destruct (String.eqb v "test")|];
          destruct server; reflexivity|].
  split; [reflexivity|].
  destruct ENV as [v|].
  - destruct (String.eqb_spec v "test") as [->|Hne]; [now left|].
    right. destruct server; discriminate.
  - right. destruct server; discriminate.
Qed.

(** ** Updates and the listing *)

Lemma insert_desc_map (g : Task -> Task) (t : Task) (l : list Task) :
  (forall r, created_at (g r) = created_at r) ->
  map g (orm.insert_desc (fun _ => 0) t l)
  = orm.insert_desc (fun _ => 0) (g t) (map g l).
Proof.
  intros Hg. induction l as [|u l IH]; cbn; [reflexivity|].
  unfold orm.comes_before. rewrite !Hg.
  destruct ((created_at u <? created_at t)
            || (created_at u =? created_at t) && (0 <=? 0)); cbn; [reflexivity|].
  now rewrite IH.
Qed.

Lemma sort_desc_map (g : Task -> Task) (rank1 rank2 : Task -> Z)
  (rows : list Task) :
  (forall r, created_at (g r) = created_at r) ->
  NoDup (map created_at rows) ->
  orm.sort_desc rank2 (map g rows) = map g (orm.sort_desc rank1 rows).
Proof.
  intros Hg Hnd.
  assert (Hnd' : NoDup (map created_at (map g rows)))
    by (rewrite map_map, (map_ext _ created_at Hg); exact Hnd).
  rewrite (sort_desc_no_tie rank2 (fun _ => 0) _ Hnd').
  rewrite (sort_desc_no_tie rank1 (fun _ => 0) _ Hnd).
  clear Hnd Hnd'. induction rows as [|r rows IH]; [reflexivity|].
  change (orm.insert_desc (fun _ => 0) (g r)
            (orm.sort_desc (fun _ => 0) (map g rows))
          = map g (orm.insert_desc (fun _ => 0) r
                     (orm.sort_desc (fun _ => 0) rows))).
  rewrite IH. symmetry. now apply insert_desc_map.
Qed.

Lemma page_map (g : Task -> Task) (skip limit : Z) (l : list Task) :
  page skip limit (map g l) = map g (page skip limit l).
Proof. unfold page. now rewrite skipn_map, firstn_map. Qed.

(** Where no two stored tasks have the same created_at, an update does not
    move a task in the listing: after a status update or a text update
    every page shows the tasks it showed before, at the same places, with
    the one field changed in the task that was updated -- and unchanged
    when the id is absent or the new text cannot be sent.  This holds
    whatever tie order the database chooses for the two listings (skip and
    limit being bigint counts). *)
Theorem updates_keep_listing_order (store : Database) (now before after : Env)
  (task_id : Z) (d : bool) (s : string) (skip limit : Z) :
  distinct_times store ->
  bigint_count skip -> bigint_count limit ->
  exists l,
    api.get_db (crud.get_tasks (Some skip) (Some limit)) before store
      = (store, Returned l) /\
    snd (api.get_db (crud.get_tasks (Some skip) (Some limit)) after
           (fst (api.get_db (crud.update_task_status task_id d) now store)))
      = Returned (match lookup store task_id with
                  | Some _ => status_updated task_id d l
                  | None => l
                  end) /\
    snd (api.get_db (crud.get_tasks (Some skip) (Some limit)) after
           (fst (api.get_db (crud.update_task_text task_id s) now store)))
      = Returned (match lookup store task_id with
                  | Some _ => if orm.contains_nul s then l
                              else text_updated task_id s l
                  | None => l
                  end).
Proof.
  intros Hd Hs Hl.
  exists (page skip limit (orm.sort_desc (tie_rank before) (tasks store))).
  split; [now apply run_get_tasks_page|].
  assert (Hsame : page skip limit (orm.sort_desc (tie_rank after) (tasks store))
                  = page skip limit (orm.sort_desc (tie_rank before) (tasks store)))
    by now rewrite (sort_desc_no_tie (tie_rank after) (tie_rank before) _ Hd).
  destruct (lookup store task_id) as [t|] eqn:Ht.
  - rewrite (run_update_task_status_present store now task_id d t Ht).
    cbn [fst]. rewrite run_get_tasks_page by assumption.
    cbn [snd with_tasks tasks]. unfold status_updated.
    rewrite (sort_desc_map _ (tie_rank before) (tie_rank after) (tasks store)), page_map;
      [|intros r; now destruct (id r =? task_id) | exact Hd].
    split; [reflexivity|].
    destruct (orm.contains_nul s) eqn:Hnul.
    + rewrite (run_update_task_text_nul store now task_id s t Ht Hnul).
      cbn [fst]. rewrite run_get_tasks_page by assumption. cbn [snd].
      now rewrite Hsame.
    + rewrite (run_update_task_text_present store now task_id s t Ht Hnul).
      cbn [fst]. rewrite run_get_tasks_page by assumption.
      cbn [snd with_tasks tasks]. unfold text_updated.
      rewrite (sort_desc_map _ (tie_rank before) (tie_rank after) (tasks store)),
        page_map; [|intros r; now destruct (id r =? task_id) | exact Hd].
      reflexivity.
  - rewrite (run_update_task_status_absent store now task_id d Ht).
    rewrite (run_update_task_text_absent store now task_id s Ht).
    cbn [fst]. rewrite !run_get_tasks_page by assumption. cbn [snd].
    rewrite Hsame. split; reflexivity.
Qed.

Lemma updates_keep_listing_order_witness :
  distinct_times three_tasks /\ bigint_count 0 /\ bigint_count 2 /\
  exists l,
    api.get_db (crud.get_tasks (Some 0) (Some 2)) (at_clock 9) three_tasks
      = (three_tasks, Returned l) /\
    snd (api.get_db (crud.get_tasks (Some 0) (Some 2)) (at_clock_descending 9)
           (fst (api.get_db (crud.update_task_status 3 true) (at_clock 8)
                   three_tasks)))
      = Returned (match lookup three_tasks 3 with
                  | Some _ => status_updated 3 true l
                  | None => l
                  end) /\
    snd (api.get_db (crud.get_tasks (Some 0) (Some 2)) (at_clock_descending 9)
           (fst (api.get_db (crud.update_task_text 3 "x") (at_clock 8)
                   three_tasks)))
      = Returned (match lookup three_tasks 3 with
                  | Some _ => if orm.contains_nul "x" then l
                              else text_updated 3 "x" l
                  | None => l
                  end).
Proof.
  assert (H0 : bigint_count 0) by (apply bigint_count_small; lia).
  assert (H2 : bigint_count 2) by (apply bigint_count_small; lia).
  split; [exact distinct_times_three_tasks|]. split; [exact H0|]. split; [exact H2|].
  exact (updates_keep_listing_order three_tasks (at_clock 8) (at_clock 9)
           (at_clock_descending 9) 3 true "x" 0 2
           distinct_times_three_tasks H0 H2).
Defined.

(** ** Requests the database cannot carry out *)




